(** * Conviction Engine v3: moving average, Wilder RSI and signal rules

    A shallow embedding of [src/app.py] and the proofs of its specification.

    Data model.  A price is an exact rational ([Q]); Python's [==], [<] and
    [>] on numbers are numeric comparisons, so values are compared with
    [Qeq], [Qlt].  This is the arithmetic the functions perform on [int] and
    [fractions.Fraction] inputs and the real-number reading of the
    specification.  The same functions on binary64 floats, with their
    rounding, infinities and nan, are in the module [B64] below, and the
    moving average on Python ints in the module [PyInt].
    Periods and list indices are Python integers ([Z]).  An indicator series
    is a [list (option Q)] ([None] is the undefined value), a signal series a
    [list string].  A computation returns [Ok v] or raises one of the
    exceptions the operations used can raise. *)

From Stdlib Require Import ZArith QArith Qabs Qminmax List String Bool Lia Lqa.
From Stdlib Require Import Floats.
Import ListNotations.

Local Open Scope Z_scope.

(** ** Exceptions and the error monad *)

Inductive exn : Type :=
| ValueError (msg : string)
| IndexError
| ZeroDivisionError
| TypeError
| OverflowError.

Inductive result (A : Type) : Type :=
| Ok (v : A)
| Raise (e : exn).

Arguments Ok {A} v.
Arguments Raise {A} e.

Definition bind {A B : Type} (m : result A) (k : A -> result B) : result B :=
  match m with
  | Ok v => k v
  | Raise e => Raise e
  end.

Declare Scope py_scope.
Delimit Scope py_scope with py.
Notation "x <- m ;; k" := (bind m (fun x => k))
  (at level 61, m at next level, right associativity) : py_scope.
Notation "' p <- m ;; k" := (bind m (fun p => k))
  (at level 61, p pattern, m at next level, right associativity) : py_scope.
Local Open Scope py_scope.

(** ** Python primitives used by the module *)

Module Py.

(** [len(l)] *)
Definition len {A : Type} (l : list A) : Z := Z.of_nat (List.length l).

(** [range(lo, hi)], as the list of the indices it yields. *)
Definition range (lo hi : Z) : list Z :=
  map (fun k => lo + Z.of_nat k) (seq 0 (Z.to_nat (hi - lo))).

(** [l[i]]: a negative index counts from the end, an index out of range
    raises [IndexError]. *)
Definition index {A : Type} (l : list A) (i : Z) : result A :=
  let j := if i <? 0 then i + len l else i in
  if (j <? 0) || (len l <=? j) then Raise IndexError
  else match nth_error l (Z.to_nat j) with
       | Some v => Ok v
       | None => Raise IndexError
       end.

(** A slice bound: negative bounds count from the end, and every bound is
    clamped to [0 .. len]. *)
Definition clamp (n i : Z) : Z :=
  if i <? 0 then Z.max 0 (i + n) else Z.min i n.

(** [l[lo:hi]] *)
Definition slice {A : Type} (l : list A) (lo hi : Z) : list A :=
  let a := clamp (len l) lo in
  let b := clamp (len l) hi in
  firstn (Z.to_nat (b - a)) (skipn (Z.to_nat a) l).

(** [l[:hi]] *)
Definition slice_to {A : Type} (l : list A) (hi : Z) : list A :=
  firstn (Z.to_nat (clamp (len l) hi)) l.

(** [[v] * n]: empty when [n <= 0]. *)
Definition replicate {A : Type} (v : A) (n : Z) : list A :=
  repeat v (Z.to_nat n).

(** [sum(l)]: starts from 0 and adds from the left. *)
Definition sum (l : list Q) : Q := fold_left Qplus l 0%Q.

(** [a / b], raising [ZeroDivisionError] on a zero divisor. *)
Definition div (a b : Q) : result Q :=
  if Qeq_bool b 0 then Raise ZeroDivisionError else Ok (a / b)%Q.

(** [max(a, b)]: the first of the largest arguments. *)
Definition max (a b : Q) : Q :=
  match (b ?= a)%Q with Gt => b | _ => a end.

(** [min(a, b)]: the first of the smallest arguments. *)
Definition min (a b : Q) : Q :=
  match (b ?= a)%Q with Lt => b | _ => a end.

(** [a != b] on numbers *)
Definition ne (a b : Q) : bool := negb (Qeq_bool a b).

(** [a < b] and [a > b] on optional numbers: ordering [None] against a
    number raises [TypeError]. *)
Definition lt (a b : option Q) : result bool :=
  match a, b with
  | Some x, Some y => Ok (match (x ?= y)%Q with Lt => true | _ => false end)
  | _, _ => Raise TypeError
  end.

Definition gt (a b : option Q) : result bool :=
  match a, b with
  | Some x, Some y => Ok (match (x ?= y)%Q with Gt => true | _ => false end)
  | _, _ => Raise TypeError
  end.

(** [a is None] *)
Definition is_none {A : Type} (a : option A) : bool :=
  match a with None => true | Some _ => false end.

(** [for i in idxs: s = body(i, s)]: the loop threads the variables it
    assigns as the state [s]; an exception in the body leaves the loop. *)
Fixpoint for_each {S : Type} (idxs : list Z) (body : Z -> S -> result S)
    (s : S) : result S :=
  match idxs with
  | [] => Ok s
  | i :: rest => s' <- body i s ;; for_each rest body s'
  end.

(** [[f(i) for i in idxs]] *)
Definition comprehension {A : Type} (idxs : list Z) (f : Z -> result A)
    : result (list A) :=
  for_each idxs (fun i acc => v <- f i ;; Ok (acc ++ [v])) [].

End Py.

(** ** The module's functions *)

(** [calculate_moving_average(data, period)] *)
Definition calculate_moving_average (data : list Q) (period : Z)
    : result (list (option Q)) :=
  if period <=? 0 then Raise (ValueError "Period must be positive")
  else
    Py.for_each (Py.range 0 (Py.len data))
      (fun i ma =>
         if i + 1 <? period then Ok (ma ++ [None])
         else
           let window := Py.slice data (i - period + 1) (i + 1) in
           v <- Py.div (Py.sum window) (inject_Z period) ;;
           Ok (ma ++ [Some v]))
      [].

(** The variables the smoothing loop of [calculate_rsi] assigns. *)
Record rsi_state : Type := mk_rsi_state {
  avg_gain : Q;
  avg_loss : Q;
  rs_values : list (option Q)
}.

(** [calculate_rsi(prices, period)] *)
Definition calculate_rsi (prices : list Q) (period : Z)
    : result (list (option Q)) :=
  if period <=? 0 then Raise (ValueError "RSI period must be positive")
  else if Py.len prices <? period + 1 then
    Ok (Py.replicate None (Py.len prices))
  else
    deltas <- Py.comprehension (Py.range 1 (Py.len prices))
                (fun i =>
                   a <- Py.index prices i ;;
                   b <- Py.index prices (i - 1) ;;
                   Ok (a - b)%Q) ;;
    let gains := map (fun delta => Py.max delta 0) deltas in
    let losses := map (fun delta => Qabs (Py.min delta 0)) deltas in
    avg_gain0 <- Py.div (Py.sum (Py.slice_to gains period)) (inject_Z period) ;;
    avg_loss0 <- Py.div (Py.sum (Py.slice_to losses period)) (inject_Z period) ;;
    let rs_values0 := Py.replicate None period in
    rs <- (if Py.ne avg_loss0 0 then Py.div avg_gain0 avg_loss0 else Ok 0%Q) ;;
    q <- Py.div 100 (1 + rs) ;;
    let rs_values1 := rs_values0 ++ [Some (100 - q)%Q] in
    final <- Py.for_each (Py.range (period + 1) (Py.len prices))
      (fun i st =>
         gain <- Py.index gains (i - 1) ;;
         loss <- Py.index losses (i - 1) ;;
         avg_gain' <- Py.div (avg_gain st * inject_Z (period - 1) + gain)
                        (inject_Z period) ;;
         avg_loss' <- Py.div (avg_loss st * inject_Z (period - 1) + loss)
                        (inject_Z period) ;;
         rs <- (if Py.ne avg_loss' 0 then Py.div avg_gain' avg_loss'
                else Ok 0%Q) ;;
         q <- Py.div 100 (1 + rs) ;;
         Ok (mk_rsi_state avg_gain' avg_loss'
               (rs_values st ++ [Some (100 - q)%Q])))
      (mk_rsi_state avg_gain0 avg_loss0 rs_values1) ;;
    Ok (rs_values final).

(** [generate_signals(prices, short_period, long_period, rsi_period,
    oversold, overbought)].  [or] and [and] evaluate their right operand
    only when the left one does not decide. *)
Definition generate_signals (prices : list Q)
    (short_period long_period rsi_period : Z) (oversold overbought : Q)
    : result (list string) :=
  ma_short <- calculate_moving_average prices short_period ;;
  ma_long <- calculate_moving_average prices long_period ;;
  rsi <- calculate_rsi prices rsi_period ;;
  Py.for_each (Py.range 0 (Py.len prices))
    (fun i signals =>
       not_ready <-
         (s <- Py.index ma_short i ;;
          if Py.is_none s then Ok true
          else
            l <- Py.index ma_long i ;;
            if Py.is_none l then Ok true
            else r <- Py.index rsi i ;; Ok (Py.is_none r)) ;;
       if not_ready then Ok (signals ++ ["HOLD"%string])
       else
         buy <-
           (s <- Py.index ma_short i ;;
            l <- Py.index ma_long i ;;
            above <- Py.gt s l ;;
            if above then r <- Py.index rsi i ;; Py.lt r (Some oversold)
            else Ok false) ;;
         if buy then Ok (signals ++ ["BUY"%string])
         else
           sell <-
             (s <- Py.index ma_short i ;;
              l <- Py.index ma_long i ;;
              below <- Py.lt s l ;;
              if below then r <- Py.index rsi i ;; Py.gt r (Some overbought)
              else Ok false) ;;
           if sell then Ok (signals ++ ["SELL"%string])
           else Ok (signals ++ ["HOLD"%string]))
    [].

(** The call with the default thresholds [oversold=30], [overbought=70]. *)
Definition generate_signals_default (prices : list Q)
    (short_period long_period rsi_period : Z) : result (list string) :=
  generate_signals prices short_period long_period rsi_period 30 70.

(** [main()].  The values that the successive calls [random.uniform(-1, 1)]
    return are the parameter [draw] ([draw k] is the result of call number
    [k]); the lines that [print] writes are returned as the list of their
    three fields, index, price and signal, in the order printed. *)
Definition main (draw : Z -> Q) : result (list (Z * Q * string)) :=
  prices <- Py.comprehension (Py.range 0 100)
              (fun k => Ok (100 + draw k)%Q) ;;
  let short_ma_period := 5 in
  let long_ma_period := 20 in
  let rsi_period := 14 in
  signals <- generate_signals_default prices
               short_ma_period long_ma_period rsi_period ;;
  Py.for_each (Py.range 0 20)
    (fun idx printed =>
       price <- Py.index prices idx ;;
       signal <- Py.index signals idx ;;
       Ok (printed ++ [(idx, price, signal)]))
    [].

(** ** The functions on binary64 floats

    The same three functions with prices of type [float] (IEEE 754
    binary64, round to nearest even), as the annotations [List[float]] say.
    The int literals [0], [1] and [100] of the source combine with floats as
    the floats of the same value; an int period is converted to a float
    where it meets one. *)

Set Warnings "-inexact-float".

Module B64.

(** [float(n)] for an int [n]: the nearest binary64 value, and
    [OverflowError] when [n] is beyond the range. *)
Definition of_int (n : Z) : result float :=
  match binary_normalize prec emax n 0 false with
  | S754_infinity _ => Raise OverflowError
  | x => Ok (SF2Prim x)
  end.

(** [a / b] on floats: [ZeroDivisionError] on a divisor [0.0] or [-0.0]. *)
Definition div (a b : float) : result float :=
  if (b =? 0)%float then Raise ZeroDivisionError else Ok (a / b)%float.

(** [a / n] and [a * n] with a float [a] and an int [n]. *)
Definition div_int (a : float) (n : Z) : result float :=
  b <- of_int n ;; div a b.

Definition mul_int (a : float) (n : Z) : result float :=
  b <- of_int n ;; Ok (a * b)%float.

(** [max(a, 0)] and [min(a, 0)]: the second argument is taken only when it
    is strictly larger, resp. smaller; a nan [a] is returned as it is. *)
Definition max0 (a : float) : float := if (a <? 0)%float then 0%float else a.

Definition min0 (a : float) : float := if (0 <? a)%float then 0%float else a.

(** [a != 0] *)
Definition ne0 (a : float) : bool := negb (a =? 0)%float.

(** [a > b] and [a < b] on optional floats. *)
Definition gt (a b : option float) : result bool :=
  match a, b with
  | Some x, Some y => Ok (y <? x)%float
  | _, _ => Raise TypeError
  end.

Definition lt (a b : option float) : result bool :=
  match a, b with
  | Some x, Some y => Ok (x <? y)%float
  | _, _ => Raise TypeError
  end.

(** [sum(l)] on floats.  CPython before 3.12 adds from the left, starting
    from 0; from 3.12 on it also accumulates the rounding errors of the
    additions (Neumaier) and adds their total at the end when it is finite
    and not 0. *)
Definition sum_sequential (l : list float) : float :=
  fold_left PrimFloat.add l 0%float.

Definition compensated_step (st : float * float) (x : float) : float * float :=
  let (total, c) := st in
  let t := (total + x)%float in
  if (PrimFloat.abs x <=? PrimFloat.abs total)%float
  then (t, (c + ((total - t) + x))%float)
  else (t, (c + ((x - t) + total))%float).

Definition sum_compensated (l : list float) : float :=
  let (total, c) := fold_left compensated_step l (0%float, 0%float) in
  if negb (c =? 0)%float && (PrimFloat.abs c <? infinity)%float
  then (total + c)%float
  else total.

(** The variables the smoothing loop of [calculate_rsi] assigns. *)
Record rsi_state : Type := mk_rsi_state {
  avg_gain : float;
  avg_loss : float;
  rs_values : list (option float)
}.

Section Functions.

(** The builtin [sum], one of the two above. *)
Variable sum : list float -> float.

(** [calculate_moving_average(data, period)] *)
Definition calculate_moving_average (data : list float) (period : Z)
    : result (list (option float)) :=
  if period <=? 0 then Raise (ValueError "Period must be positive")
  else
    Py.for_each (Py.range 0 (Py.len data))
      (fun i ma =>
         if i + 1 <? period then Ok (ma ++ [None])
         else
           let window := Py.slice data (i - period + 1) (i + 1) in
           v <- div_int (sum window) period ;;
           Ok (ma ++ [Some v]))
      [].

(** [calculate_rsi(prices, period)] *)
Definition calculate_rsi (prices : list float) (period : Z)
    : result (list (option float)) :=
  if period <=? 0 then Raise (ValueError "RSI period must be positive")
  else if Py.len prices <? period + 1 then
    Ok (Py.replicate None (Py.len prices))
  else
    deltas <- Py.comprehension (Py.range 1 (Py.len prices))
                (fun i =>
                   a <- Py.index prices i ;;
                   b <- Py.index prices (i - 1) ;;
                   Ok (a - b)%float) ;;
    let gains := map (fun delta => max0 delta) deltas in
    let losses := map (fun delta => PrimFloat.abs (min0 delta)) deltas in
    avg_gain0 <- div_int (sum (Py.slice_to gains period)) period ;;
    avg_loss0 <- div_int (sum (Py.slice_to losses period)) period ;;
    let rs_values0 := Py.replicate None period in
    rs <- (if ne0 avg_loss0 then div avg_gain0 avg_loss0 else Ok 0%float) ;;
    q <- div 100 (1 + rs) ;;
    let rs_values1 := rs_values0 ++ [Some (100 - q)%float] in
    final <- Py.for_each (Py.range (period + 1) (Py.len prices))
      (fun i st =>
         gain <- Py.index gains (i - 1) ;;
         loss <- Py.index losses (i - 1) ;;
         scaled_gain <- mul_int (avg_gain st) (period - 1) ;;
         avg_gain' <- div_int (scaled_gain + gain) period ;;
         scaled_loss <- mul_int (avg_loss st) (period - 1) ;;
         avg_loss' <- div_int (scaled_loss + loss) period ;;
         rs <- (if ne0 avg_loss' then div avg_gain' avg_loss'
                else Ok 0%float) ;;
         q <- div 100 (1 + rs) ;;
         Ok (mk_rsi_state avg_gain' avg_loss'
               (rs_values st ++ [Some (100 - q)%float])))
      (mk_rsi_state avg_gain0 avg_loss0 rs_values1) ;;
    Ok (rs_values final).

(** [generate_signals(prices, short_period, long_period, rsi_period,
    oversold, overbought)] *)
Definition generate_signals (prices : list float)
    (short_period long_period rsi_period : Z) (oversold overbought : float)
    : result (list string) :=
  ma_short <- calculate_moving_average prices short_period ;;
  ma_long <- calculate_moving_average prices long_period ;;
  rsi <- calculate_rsi prices rsi_period ;;
  Py.for_each (Py.range 0 (Py.len prices))
    (fun i signals =>
       not_ready <-
         (s <- Py.index ma_short i ;;
          if Py.is_none s then Ok true
          else
            l <- Py.index ma_long i ;;
            if Py.is_none l then Ok true
            else r <- Py.index rsi i ;; Ok (Py.is_none r)) ;;
       if not_ready then Ok (signals ++ ["HOLD"%string])
       else
         buy <-
           (s <- Py.index ma_short i ;;
            l <- Py.index ma_long i ;;
            above <- gt s l ;;
            if above then r <- Py.index rsi i ;; lt r (Some oversold)
            else Ok false) ;;
         if buy then Ok (signals ++ ["BUY"%string])
         else
           sell <-
             (s <- Py.index ma_short i ;;
              l <- Py.index ma_long i ;;
              below <- lt s l ;;
              if below then r <- Py.index rsi i ;; gt r (Some overbought)
              else Ok false) ;;
           if sell then Ok (signals ++ ["SELL"%string])
           else Ok (signals ++ ["HOLD"%string]))
    [].

End Functions.

End B64.

(** ** The moving average on Python ints

    With int prices [sum(window)] is an exact int and [sum(window) / period]
    is the true division of two ints: the binary64 value nearest to the
    quotient, and [OverflowError] when that is beyond the range. *)

Module PyInt.

Definition to_spec (n : Z) : spec_float :=
  match n with
  | Z0 => S754_zero false
  | Zpos p => S754_finite false p 0
  | Zneg p => S754_finite true p 0
  end.

(** [a / b] on ints *)
Definition truediv (a b : Z) : result float :=
  if b =? 0 then Raise ZeroDivisionError
  else
    match SFdiv prec emax (to_spec a) (to_spec b) with
    | S754_infinity _ => Raise OverflowError
    | x => Ok (SF2Prim x)
    end.

(** [sum(l)] on ints *)
Definition sum (l : list Z) : Z := fold_left Z.add l 0.

(** [calculate_moving_average(data, period)] *)
Definition calculate_moving_average (data : list Z) (period : Z)
    : result (list (option float)) :=
  if period <=? 0 then Raise (ValueError "Period must be positive")
  else
    Py.for_each (Py.range 0 (Py.len data))
      (fun i ma =>
         if i + 1 <? period then Ok (ma ++ [None])
         else
           let window := Py.slice data (i - period + 1) (i + 1) in
           v <- truediv (sum window) period ;;
           Ok (ma ++ [Some v]))
      [].

End PyInt.

(** ** The specification's reading of the indicators

    These definitions follow the words of the specification; the theorems
    below compare them with what the functions above return. *)

Module Spec.

(** [series[j]] for an index in range. *)
Definition price_at (series : list Q) (j : Z) : Q :=
  nth (Z.to_nat j) series 0%Q.

(** [f lo + f (lo+1) + ... ] over [n] consecutive indices. *)
Fixpoint sigma (f : Z -> Q) (lo : Z) (n : nat) : Q :=
  match n with
  | O => 0%Q
  | S n' => (f lo + sigma f (lo + 1) n')%Q
  end.

(** The arithmetic mean of the [period] values [series[i-period+1 .. i]]. *)
Definition window_mean (series : list Q) (period i : Z) : Q :=
  (sigma (price_at series) (i - period + 1) (Z.to_nat period)
   / inject_Z period)%Q.

(** The moving average at index [i]: undefined while [i <= period - 2]. *)
Definition sma (series : list Q) (period i : Z) : option Q :=
  if i <=? period - 2 then None else Some (window_mean series period i).

(** [gain[j] = max(series[j+1] - series[j], 0)] and
    [loss[j] = max(-(series[j+1] - series[j]), 0)]. *)
Definition delta_at (series : list Q) (j : Z) : Q :=
  (price_at series (j + 1) - price_at series j)%Q.

Definition gain_at (series : list Q) (j : Z) : Q :=
  Qmax (delta_at series j) 0.

Definition loss_at (series : list Q) (j : Z) : Q :=
  Qmax (- delta_at series j) 0.

(** The seed average: the arithmetic mean of the first [period] values. *)
Definition seed_avg (x : Z -> Q) (period : Z) : Q :=
  (sigma x 0 (Z.to_nat period) / inject_Z period)%Q.

(** Wilder's smoothed average at price index [period + k]: the seed at
    [k = 0], then [(previous * (period - 1) + x[i-1]) / period]. *)
Fixpoint wilder (x : Z -> Q) (period : Z) (k : nat) : Q :=
  match k with
  | O => seed_avg x period
  | S k' =>
      ((wilder x period k' * (inject_Z period - 1)
        + x (period + Z.of_nat k')%Z)
       / inject_Z period)%Q
  end.

Definition avg_gain_at (series : list Q) (period i : Z) : Q :=
  wilder (gain_at series) period (Z.to_nat (i - period)).

Definition avg_loss_at (series : list Q) (period i : Z) : Q :=
  wilder (loss_at series) period (Z.to_nat (i - period)).

(** Relative strength, with the fallback [RS = 0] on a zero average loss. *)
Definition rs_of (g l : Q) : Q :=
  if Qeq_bool l 0 then 0%Q else (g / l)%Q.

(** [RSI = 100 - 100 / (1 + RS)] *)
Definition rsi_of (g l : Q) : Q := (100 - 100 / (1 + rs_of g l))%Q.

(** The RSI at index [i]: undefined below [period]. *)
Definition rsi (series : list Q) (period i : Z) : option Q :=
  if i <? period then None
  else Some (rsi_of (avg_gain_at series period i)
                    (avg_loss_at series period i)).

(** The signal rule at one index. *)
Definition decide (s l r : option Q) (oversold overbought : Q) : string :=
  match s, l, r with
  | Some s, Some l, Some r =>
      if Qlt_le_dec l s then
        if Qlt_le_dec r oversold then "BUY" else "HOLD"
      else if Qlt_le_dec s l then
        if Qlt_le_dec overbought r then "SELL" else "HOLD"
      else "HOLD"
  | _, _, _ => "HOLD"
  end%string.

End Spec.

(** Two indicator values agree: both undefined, or numerically equal. *)
Definition opt_equiv (a b : option Q) : Prop :=
  match a, b with
  | None, None => True
  | Some x, Some y => (x == y)%Q
  | _, _ => False
  end.

(** [l[i]] is [v], for an index in range. *)
Definition at_index {A : Type} (l : list A) (i : Z) (v : A) : Prop :=
  0 <= i /\ nth_error l (Z.to_nat i) = Some v.

(** A series all of whose prices equal [c]. *)
Definition constant_series (c : Q) (series : list Q) : Prop :=
  Forall (fun x => (x == c)%Q) series.

(** A series no price of which is above the one before it, and one no
    price of which is below the one before it. *)
Definition never_rises (series : list Q) : Prop :=
  forall j, 0 <= j -> j + 1 < Py.len series ->
    (Spec.price_at series (j + 1) <= Spec.price_at series j)%Q.

Definition never_falls (series : list Q) : Prop :=
  forall j, 0 <= j -> j + 1 < Py.len series ->
    (Spec.price_at series j <= Spec.price_at series (j + 1))%Q.

(** ** Loop invariants *)

(** The loop invariant: [ma] holds the first [i] values of the average. *)
Definition ma_inv (data : list Q) (period : Z)
    (i : Z) (ma : list (option Q)) : Prop :=
  Py.len ma = i /\
  forall k, 0 <= k < i ->
    exists v, at_index ma k v /\ opt_equiv v (Spec.sma data period k).

(** The comprehension that builds [deltas], when it reaches index [i]. *)
Definition deltas_inv (prices : list Q) (i : Z) (acc : list Q) : Prop :=
  Py.len acc = i - 1 /\
  forall j, 0 <= j < i - 1 -> at_index acc j (Spec.delta_at prices j).

(** The state of the smoothing loop when it reaches index [i]. *)
Definition rsi_inv (prices : list Q) (period : Z)
    (i : Z) (st : rsi_state) : Prop :=
  Py.len (rs_values st) = i /\
  (avg_gain st == Spec.avg_gain_at prices period (i - 1))%Q /\
  (avg_loss st == Spec.avg_loss_at prices period (i - 1))%Q /\
  forall k, 0 <= k < i ->
    exists v, at_index (rs_values st) k v /\
              opt_equiv v (Spec.rsi prices period k).

(** The state of the two loops of [main] when they reach index [i]. *)
Definition prices_inv (draw : Z -> Q) (i : Z) (acc : list Q) : Prop :=
  Py.len acc = i /\
  forall k, 0 <= k < i -> at_index acc k (100 + draw k)%Q.

Definition printed_inv (prices : list Q) (signals : list string)
    (i : Z) (printed : list (Z * Q * string)) : Prop :=
  Py.len printed = i /\
  forall k, 0 <= k < i ->
    exists price signal,
      at_index prices k price /\ at_index signals k signal /\
      at_index printed k (k, price, signal).

(** The state of the signal loop when it reaches index [i]. *)
Definition signals_inv (oversold overbought : Q)
    (ma_short ma_long rsi : list (option Q))
    (i : Z) (signals : list string) : Prop :=
  Py.len signals = i /\
  forall k, 0 <= k < i ->
    exists s l r,
      at_index ma_short k s /\ at_index ma_long k l /\ at_index rsi k r /\
      at_index signals k (Spec.decide s l r oversold overbought).

(** Case analysis on conjunctions of rational comparisons. *)
Ltac q_cases :=
  repeat match goal with
         | H : _ /\ _ |- _ => destruct H
         | |- _ /\ _ => split
         | |- ~ _ => intro
         end;
  try assumption; try lra; try (exfalso; lra);
  try (exfalso; match goal with H : ~ _ |- _ => apply H; split; lra end).

(** ** The specification's end-to-end example, in binary64 *)

(** [[10.0] * 10] *)
Definition ten_tens : list float := repeat 10%float 10.

(** A call returned a series every defined value of which [== c]. *)
Definition all_none_or (c : float) (r : result (list (option float))) : bool :=
  match r with
  | Ok l =>
      forallb (fun v => match v with
                        | None => true
                        | Some x => (x =? c)%float
                        end) l
  | Raise _ => false
  end.

(** A call returned [n] signals, all of them HOLD. *)
Definition all_hold (n : nat) (r : result (list string)) : bool :=
  match r with
  | Ok l => Nat.eqb (List.length l) n && forallb (String.eqb "HOLD") l
  | Raise _ => false
  end.

(** The example holds for every period up to the length of the series (a
    longer period behaves as the period 11, and an RSI period from 10 on as
    the period 10). *)
Definition check_ten_tens (sum : list float -> float) (oversold overbought : float)
    : bool :=
  forallb (fun p => all_none_or 10 (B64.calculate_moving_average sum ten_tens p))
          (Py.range 1 12)
  && forallb (fun sp =>
       forallb (fun lp =>
         forallb (fun rp =>
           all_hold 10 (B64.generate_signals sum ten_tens sp lp rp
                          oversold overbought))
           (Py.range 1 11))
         (Py.range 1 12))
       (Py.range 1 12).

(** ** The functions on concrete series *)

Example moving_average_too_short :
  calculate_moving_average [1; 2; 3]%Q 5 = Ok [None; None; None].
Proof. reflexivity. Qed.

Example rsi_after_gains_and_losses :
  calculate_rsi [1; 3; 2; 5; 4]%Q 3
  = Ok [None; None; None; Some (1500 # 18); Some (9000 # 135)].
Proof. vm_compute. reflexivity. Qed.

Example signals_buy_then_sell :
  generate_signals_default [10; 20; 30; 40; 50; 60; 70; 69]%Q 1 2 3
  = Ok ["HOLD"; "HOLD"; "HOLD"; "BUY"; "BUY"; "BUY"; "BUY"; "SELL"]%string.
Proof. vm_compute. reflexivity. Qed.

Example signals_empty_series :
  generate_signals_default [] 5 20 14 = Ok [].
Proof. reflexivity. Qed.

Example binary64_rsi_after_gains_and_losses :
  B64.calculate_rsi B64.sum_sequential [1; 3; 2; 5; 4]%float 3
  = Ok [None; None; None; Some 83.333333333333343%float;
        Some 66.666666666666671%float]
  /\ B64.calculate_rsi B64.sum_compensated [1; 3; 2; 5; 4]%float 3
      = B64.calculate_rsi B64.sum_sequential [1; 3; 2; 5; 4]%float 3.
Proof. split; vm_compute; reflexivity. Qed.

Example binary64_signals_buy_then_sell :
  B64.generate_signals B64.sum_sequential
    [10; 20; 30; 40; 50; 60; 70; 69]%float 1 2 3 30 70
  = Ok ["HOLD"; "HOLD"; "HOLD"; "BUY"; "BUY"; "BUY"; "BUY"; "SELL"]%string.
Proof. vm_compute. reflexivity. Qed.

Example int_moving_average :
  PyInt.calculate_moving_average [1; 2; 3; 4; 5] 3
  = Ok [None; None; Some 2%float; Some 3%float; Some 4%float].
Proof. vm_compute. reflexivity. Qed.

(** ** Ranges, loops and list primitives *)

Lemma range_nil (lo hi : Z) : hi <= lo -> Py.range lo hi = [].
Proof.
  intros H. unfold Py.range.
  replace (Z.to_nat (hi - lo)) with O by lia. reflexivity.
Qed.

Lemma range_cons (lo hi : Z) :
  lo < hi -> Py.range lo hi = lo :: Py.range (lo + 1) hi.
Proof.
  intros H. unfold Py.range.
  replace (Z.to_nat (hi - lo)) with (S (Z.to_nat (hi - (lo + 1)))) by lia.
  cbn [seq map]. f_equal; [lia|].
  rewrite <- seq_shift, map_map.
  apply map_ext. intros k. lia.
Qed.

(** The loop rule: an invariant that holds on entry and is kept by every
    iteration holds on exit, and the loop raises nothing. *)
Lemma for_each_range {S : Type} (P : Z -> S -> Prop)
    (body : Z -> S -> result S) (lo hi : Z) (s0 : S) :
  lo <= hi ->
  P lo s0 ->
  (forall i s, lo <= i < hi -> P i s ->
     exists s', body i s = Ok s' /\ P (i + 1) s') ->
  exists s', Py.for_each (Py.range lo hi) body s0 = Ok s' /\ P hi s'.
Proof.
  intros Hle. remember (Z.to_nat (hi - lo)) as n eqn:Hn.
  revert lo s0 Hle Hn.
  induction n as [|n IH]; intros lo s0 Hle Hn H0 Hstep.
  - assert (lo = hi) by lia. subst lo.
    rewrite range_nil by lia. exists s0. split; [reflexivity|assumption].
  - rewrite range_cons by lia. cbn [Py.for_each].
    destruct (Hstep lo s0) as (s1 & Hb & H1); [lia|assumption|].
    rewrite Hb. cbn [bind].
    apply IH; [lia|lia|assumption|].
    intros i s Hi. apply Hstep. lia.
Qed.

Lemma len_app {A : Type} (l : list A) (v : A) :
  Py.len (l ++ [v]) = Py.len l + 1.
Proof. unfold Py.len. rewrite length_app. cbn. lia. Qed.

Lemma len_nonneg {A : Type} (l : list A) : 0 <= Py.len l.
Proof. unfold Py.len. lia. Qed.

Lemma index_ok {A : Type} (l : list A) (i : Z) (v : A) :
  at_index l i v -> Py.index l i = Ok v.
Proof.
  intros [Hi Hn]. unfold Py.index.
  assert (Hlt : (Z.to_nat i < List.length l)%nat).
  { apply nth_error_Some. congruence. }
  destruct (Z.ltb_spec i 0); [lia|].
  destruct (Z.ltb_spec i 0); [lia|].
  destruct (Z.leb_spec (Py.len l) i); [unfold Py.len in *; lia|].
  cbn [orb]. rewrite Hn. reflexivity.
Qed.

Lemma at_index_app_old {A : Type} (l : list A) (x v : A) (i : Z) :
  at_index l i v -> at_index (l ++ [x]) i v.
Proof.
  intros [Hi Hn]. split; [assumption|].
  rewrite nth_error_app1; [assumption|].
  apply nth_error_Some. congruence.
Qed.

Lemma at_index_app_new {A : Type} (l : list A) (x : A) :
  at_index (l ++ [x]) (Py.len l) x.
Proof.
  split; [apply len_nonneg|].
  unfold Py.len. rewrite Nat2Z.id, nth_error_app2 by lia.
  rewrite Nat.sub_diag. reflexivity.
Qed.

Lemma at_index_lt {A : Type} (l : list A) (i : Z) (v : A) :
  at_index l i v -> 0 <= i < Py.len l.
Proof.
  intros [Hi Hn]. split; [assumption|].
  assert ((Z.to_nat i < List.length l)%nat) by (apply nth_error_Some; congruence).
  unfold Py.len. lia.
Qed.

Lemma at_index_exists {A : Type} (l : list A) (i : Z) :
  0 <= i < Py.len l -> exists v, at_index l i v.
Proof.
  intros [Hi Hl]. unfold Py.len in Hl.
  destruct (nth_error l (Z.to_nat i)) as [v|] eqn:E.
  - exists v. split; assumption.
  - apply nth_error_None in E. lia.
Qed.

Lemma at_index_inj {A : Type} (l : list A) (i : Z) (v w : A) :
  at_index l i v -> at_index l i w -> v = w.
Proof. intros [_ H1] [_ H2]. congruence. Qed.

Lemma at_index_replicate {A : Type} (v : A) (n i : Z) :
  0 <= i < n -> at_index (Py.replicate v n) i v.
Proof.
  intros Hi. split; [lia|]. unfold Py.replicate.
  rewrite nth_error_repeat by lia. reflexivity.
Qed.

Lemma len_replicate {A : Type} (v : A) (n : Z) :
  0 <= n -> Py.len (Py.replicate v n) = n.
Proof.
  intros Hn. unfold Py.len, Py.replicate. rewrite repeat_length. lia.
Qed.

Lemma div_ok (a b : Q) : ~ (b == 0)%Q -> Py.div a b = Ok (a / b)%Q.
Proof.
  intros Hb. unfold Py.div.
  destruct (Qeq_bool b 0) eqn:E; [|reflexivity].
  apply Qeq_bool_eq in E. contradiction.
Qed.

Lemma inject_Z_pos_nonzero (p : Z) : 1 <= p -> ~ (inject_Z p == 0)%Q.
Proof.
  intros Hp H. unfold Qeq in H. cbn in H. lia.
Qed.

(** ** Sums and slices *)

Lemma fold_left_Qplus (l : list Q) (a : Q) :
  (fold_left Qplus l a == a + fold_left Qplus l 0)%Q.
Proof.
  revert a. induction l as [|x l IH]; intros a; cbn [fold_left].
  - ring.
  - rewrite IH, (IH (0 + x)%Q). ring.
Qed.

Lemma sum_cons (x : Q) (l : list Q) : (Py.sum (x :: l) == x + Py.sum l)%Q.
Proof.
  unfold Py.sum. cbn [fold_left]. rewrite fold_left_Qplus. ring.
Qed.

Lemma skipn_cons_nth {A : Type} (d : A) (l : list A) (a : nat) :
  (a < List.length l)%nat -> skipn a l = nth a l d :: skipn (S a) l.
Proof.
  revert a. induction l as [|x l IH]; intros a Ha; cbn in Ha; [lia|].
  destruct a as [|a]; [reflexivity|].
  cbn [skipn nth]. apply IH. lia.
Qed.

Lemma sum_window (l : list Q) (a n : nat) :
  (a + n <= List.length l)%nat ->
  (Py.sum (firstn n (skipn a l)) == Spec.sigma (Spec.price_at l) (Z.of_nat a) n)%Q.
Proof.
  revert a. induction n as [|n IH]; intros a Hlen.
  - reflexivity.
  - rewrite (skipn_cons_nth 0%Q) by lia. cbn [firstn Spec.sigma].
    rewrite sum_cons, IH by lia.
    unfold Spec.price_at at 2. rewrite Nat2Z.id.
    replace (Z.of_nat a + 1) with (Z.of_nat (S a)) by lia. reflexivity.
Qed.

Lemma sigma_ext (f g : Z -> Q) (lo : Z) (n : nat) :
  (forall j, lo <= j < lo + Z.of_nat n -> (f j == g j)%Q) ->
  (Spec.sigma f lo n == Spec.sigma g lo n)%Q.
Proof.
  revert lo. induction n as [|n IH]; intros lo H; cbn [Spec.sigma].
  - reflexivity.
  - rewrite (H lo) by lia. rewrite IH; [reflexivity|].
    intros j Hj. apply H. lia.
Qed.

Lemma sigma_nonneg (f : Z -> Q) (lo : Z) (n : nat) :
  (forall j, (0 <= f j)%Q) -> (0 <= Spec.sigma f lo n)%Q.
Proof.
  intros H. revert lo. induction n as [|n IH]; intros lo; cbn [Spec.sigma].
  - apply Qle_refl.
  - specialize (H lo). specialize (IH (lo + 1)). lra.
Qed.

Lemma slice_in_range {A : Type} (l : list A) (lo hi : Z) :
  0 <= lo <= hi -> hi <= Py.len l ->
  Py.slice l lo hi = firstn (Z.to_nat (hi - lo)) (skipn (Z.to_nat lo) l).
Proof.
  intros Hlo Hhi. unfold Py.slice, Py.clamp.
  destruct (Z.ltb_spec lo 0); [lia|].
  destruct (Z.ltb_spec hi 0); [lia|].
  rewrite !Z.min_l by lia. reflexivity.
Qed.

Lemma slice_to_in_range {A : Type} (l : list A) (hi : Z) :
  0 <= hi <= Py.len l -> Py.slice_to l hi = firstn (Z.to_nat hi) (skipn 0 l).
Proof.
  intros Hhi. unfold Py.slice_to, Py.clamp.
  destruct (Z.ltb_spec hi 0); [lia|].
  rewrite Z.min_l by lia. reflexivity.
Qed.

(** ** The moving average *)

Section MovingAverage.

Variable data : list Q.
Variable period : Z.
Hypothesis period_pos : 1 <= period.

Lemma window_sum (i : Z) :
  period <= i + 1 -> i < Py.len data ->
  (Py.sum (Py.slice data (i - period + 1) (i + 1)) / inject_Z period
   == Spec.window_mean data period i)%Q.
Proof.
  intros Hlo Hhi. unfold Spec.window_mean.
  rewrite slice_in_range by lia.
  replace (i + 1 - (i - period + 1)) with period by lia.
  rewrite sum_window by (unfold Py.len in Hhi; lia).
  rewrite Z2Nat.id by lia. reflexivity.
Qed.

Lemma moving_average_computes :
  exists ma,
    calculate_moving_average data period = Ok ma /\
    Py.len ma = Py.len data /\
    forall i, 0 <= i < Py.len data ->
      exists v, at_index ma i v /\ opt_equiv v (Spec.sma data period i).
Proof.
  unfold calculate_moving_average.
  destruct (Z.leb_spec period 0); [lia|].
  apply (for_each_range (ma_inv data period)).
  - apply len_nonneg.
  - split; [reflexivity|]. intros k Hk. lia.
  - intros i ma Hi [Hlen Hold].
    assert (Hnew : forall v, opt_equiv v (Spec.sma data period i) ->
                     ma_inv data period (i + 1) (ma ++ [v])).
    { intros v Hv. split; [rewrite len_app; lia|].
      intros k Hk. destruct (Z.eq_dec k i) as [-> | Hne].
      - exists v. split; [|assumption]. rewrite <- Hlen. apply at_index_app_new.
      - destruct (Hold k) as (w & Hw & Hs); [lia|].
        exists w. split; [apply at_index_app_old|]; assumption. }
    destruct (Z.ltb_spec (i + 1) period).
    + eexists. split; [reflexivity|]. apply Hnew.
      unfold Spec.sma. destruct (Z.leb_spec i (period - 2)); [exact I|lia].
    + rewrite div_ok by (apply inject_Z_pos_nonzero; assumption).
      cbn [bind]. eexists. split; [reflexivity|]. apply Hnew.
      unfold Spec.sma. destruct (Z.leb_spec i (period - 2)); [lia|].
      cbn [opt_equiv]. apply window_sum; lia.
Qed.

End MovingAverage.

(** ** Gains, losses and the RSI formula *)

Lemma at_index_map {A B : Type} (f : A -> B) (l : list A) (i : Z) (v : A) :
  at_index l i v -> at_index (map f l) i (f v).
Proof.
  intros [Hi Hn]. split; [assumption|].
  rewrite nth_error_map, Hn. reflexivity.
Qed.

Lemma len_map {A B : Type} (f : A -> B) (l : list A) :
  Py.len (map f l) = Py.len l.
Proof. unfold Py.len. rewrite length_map. reflexivity. Qed.

Lemma at_index_price (l : list Q) (i : Z) :
  0 <= i < Py.len l -> at_index l i (Spec.price_at l i).
Proof.
  intros Hi. destruct (at_index_exists l i Hi) as (v & Hv).
  replace (Spec.price_at l i) with v; [assumption|].
  destruct Hv as [_ Hn]. unfold Spec.price_at.
  symmetry. apply nth_error_nth. assumption.
Qed.

Lemma price_at_index (l : list Q) (i : Z) (v : Q) :
  at_index l i v -> Spec.price_at l i = v.
Proof.
  intros [_ Hn]. unfold Spec.price_at. apply nth_error_nth. assumption.
Qed.

Lemma py_max_0 (d : Q) : (Py.max d 0 == Qmax d 0)%Q.
Proof.
  unfold Py.max. destruct (Qcompare_spec 0 d) as [E|L|G].
  - rewrite Q.max_l; [reflexivity|]. rewrite E. apply Qle_refl.
  - rewrite Q.max_l; [reflexivity|]. apply Qlt_le_weak. assumption.
  - rewrite Q.max_r; [reflexivity|]. apply Qlt_le_weak. assumption.
Qed.

Lemma py_abs_min_0 (d : Q) : (Qabs (Py.min d 0) == Qmax (- d) 0)%Q.
Proof.
  unfold Py.min. destruct (Qcompare_spec 0 d) as [E|L|G].
  - rewrite Qabs_pos by (rewrite <- E; apply Qle_refl).
    rewrite Q.max_r; [symmetry; assumption|]. rewrite <- E. apply Qle_refl.
  - rewrite Q.max_r by lra. apply Qabs_pos. apply Qle_refl.
  - rewrite Qabs_neg by lra. rewrite Q.max_l by lra. reflexivity.
Qed.

Lemma gain_at_nonneg (series : list Q) (j : Z) : (0 <= Spec.gain_at series j)%Q.
Proof. unfold Spec.gain_at. apply Q.le_max_r. Qed.

Lemma loss_at_nonneg (series : list Q) (j : Z) : (0 <= Spec.loss_at series j)%Q.
Proof. unfold Spec.loss_at. apply Q.le_max_r. Qed.

Lemma inject_Z_pos (p : Z) : 1 <= p -> (0 < inject_Z p)%Q.
Proof. intros Hp. unfold Qlt. cbn. lia. Qed.

Lemma inject_Z_pred (p : Z) : (inject_Z (p - 1) == inject_Z p - 1)%Q.
Proof. unfold Qeq. cbn. lia. Qed.

Lemma Qdiv_nonneg (a b : Q) : (0 <= a)%Q -> (0 < b)%Q -> (0 <= a / b)%Q.
Proof.
  intros Ha Hb. apply Qle_shift_div_l; [assumption|]. lra.
Qed.

Lemma seed_avg_nonneg (x : Z -> Q) (p : Z) :
  1 <= p -> (forall j, (0 <= x j)%Q) -> (0 <= Spec.seed_avg x p)%Q.
Proof.
  intros Hp Hx. unfold Spec.seed_avg.
  apply Qdiv_nonneg; [apply sigma_nonneg; assumption|apply inject_Z_pos; assumption].
Qed.

Lemma wilder_nonneg (x : Z -> Q) (p : Z) (k : nat) :
  1 <= p -> (forall j, (0 <= x j)%Q) -> (0 <= Spec.wilder x p k)%Q.
Proof.
  intros Hp Hx. induction k as [|k IH]; cbn [Spec.wilder].
  - apply seed_avg_nonneg; assumption.
  - apply Qdiv_nonneg; [|apply inject_Z_pos; assumption].
    assert (0 <= inject_Z p - 1)%Q.
    { rewrite <- inject_Z_pred. unfold Qle. cbn. lia. }
    specialize (Hx (p + Z.of_nat k)). nra.
Qed.

Lemma rs_of_nonneg (g l : Q) : (0 <= g)%Q -> (0 <= l)%Q -> (0 <= Spec.rs_of g l)%Q.
Proof.
  intros Hg Hl. unfold Spec.rs_of.
  destruct (Qeq_bool l 0) eqn:E; [apply Qle_refl|].
  apply Qeq_bool_neq in E. apply Qdiv_nonneg; [assumption|].
  destruct (Qlt_le_dec 0 l) as [H|H]; [assumption|].
  exfalso. apply E. lra.
Qed.

Lemma rs_of_compat (g l g' l' : Q) :
  (g == g')%Q -> (l == l')%Q -> (Spec.rs_of g l == Spec.rs_of g' l')%Q.
Proof.
  intros Hg Hl. unfold Spec.rs_of.
  destruct (Qeq_bool l 0) eqn:E; destruct (Qeq_bool l' 0) eqn:E'.
  - reflexivity.
  - apply Qeq_bool_eq in E. apply Qeq_bool_neq in E'.
    exfalso. apply E'. rewrite <- Hl. assumption.
  - apply Qeq_bool_neq in E. apply Qeq_bool_eq in E'.
    exfalso. apply E. rewrite Hl. assumption.
  - rewrite Hg, Hl. reflexivity.
Qed.

Lemma rsi_of_compat (g l g' l' : Q) :
  (g == g')%Q -> (l == l')%Q -> (Spec.rsi_of g l == Spec.rsi_of g' l')%Q.
Proof.
  intros Hg Hl. unfold Spec.rsi_of.
  rewrite (rs_of_compat g l g' l' Hg Hl). reflexivity.
Qed.

(** With a zero average loss the fallback [RS = 0] gives [RSI = 0]. *)
Lemma rsi_of_zero_loss (g l : Q) : (l == 0)%Q -> (Spec.rsi_of g l == 0)%Q.
Proof.
  intros Hl. unfold Spec.rsi_of, Spec.rs_of.
  rewrite (Qeq_eq_bool _ _ Hl). reflexivity.
Qed.

Lemma rsi_of_bounds (g l : Q) :
  (0 <= g)%Q -> (0 <= l)%Q -> (0 <= Spec.rsi_of g l <= 100)%Q.
Proof.
  intros Hg Hl. pose proof (rs_of_nonneg g l Hg Hl) as Hr.
  unfold Spec.rsi_of. set (r := Spec.rs_of g l) in *.
  assert (Hpos : (0 < 1 + r)%Q) by lra.
  assert (H0 : (0 <= 100 / (1 + r))%Q) by (apply Qdiv_nonneg; lra).
  assert (H1 : (100 / (1 + r) <= 100)%Q).
  { apply Qle_shift_div_r; [assumption|]. lra. }
  lra.
Qed.

(** The two statements that compute RS and the RSI value, as one step:
    they raise nothing when the averages are not negative. *)
Lemma rsi_value_computes {A : Type} (g l : Q) (k : Q -> result A) :
  (0 <= g)%Q -> (0 <= l)%Q ->
  (rs <- (if Py.ne l 0 then Py.div g l else Ok 0%Q) ;;
   q <- Py.div 100 (1 + rs) ;; k q)
  = k (100 / (1 + Spec.rs_of g l))%Q.
Proof.
  intros Hg Hl. pose proof (rs_of_nonneg g l Hg Hl) as Hr.
  unfold Spec.rs_of in *. unfold Py.ne, Py.div at 1.
  destruct (Qeq_bool l 0) eqn:E; cbn [negb bind];
    rewrite div_ok by lra; reflexivity.
Qed.

(** ** The RSI *)

Section RSI.

Variable prices : list Q.
Variable period : Z.
Hypothesis period_pos : 1 <= period.
Hypothesis enough : period + 1 <= Py.len prices.

Lemma deltas_compute :
  exists deltas,
    Py.comprehension (Py.range 1 (Py.len prices))
      (fun i =>
         a <- Py.index prices i ;;
         b <- Py.index prices (i - 1) ;;
         Ok (a - b)%Q) = Ok deltas /\
    Py.len deltas = Py.len prices - 1 /\
    forall j, 0 <= j < Py.len prices - 1 ->
      at_index deltas j (Spec.delta_at prices j).
Proof.
  unfold Py.comprehension. apply (for_each_range (deltas_inv prices)).
  - lia.
  - split; [reflexivity|]. intros j Hj. lia.
  - intros i acc Hi [Hlen Hold].
    rewrite (index_ok prices i _ (at_index_price prices i ltac:(lia))).
    cbn [bind].
    rewrite (index_ok prices (i - 1) _ (at_index_price prices (i - 1) ltac:(lia))).
    cbn [bind]. eexists. split; [reflexivity|].
    split; [rewrite len_app; lia|].
    intros j Hj. destruct (Z.eq_dec j (i - 1)) as [-> | Hne].
    + unfold Spec.delta_at. replace (i - 1 + 1) with i by lia.
      rewrite <- Hlen. apply at_index_app_new.
    + apply at_index_app_old. apply Hold. lia.
Qed.

Lemma avg_gain_at_nonneg (i : Z) : (0 <= Spec.avg_gain_at prices period i)%Q.
Proof.
  apply wilder_nonneg; [assumption|]. intros j. apply gain_at_nonneg.
Qed.

Lemma avg_loss_at_nonneg (i : Z) : (0 <= Spec.avg_loss_at prices period i)%Q.
Proof.
  apply wilder_nonneg; [assumption|]. intros j. apply loss_at_nonneg.
Qed.

Lemma wilder_step (x : Z -> Q) (i : Z) :
  period + 1 <= i ->
  (Spec.wilder x period (Z.to_nat (i - period))
   == (Spec.wilder x period (Z.to_nat (i - 1 - period))
       * (inject_Z period - 1) + x (i - 1)%Z)
      / inject_Z period)%Q.
Proof.
  intros Hi.
  replace (Z.to_nat (i - period)) with (S (Z.to_nat (i - 1 - period))) by lia.
  cbn [Spec.wilder].
  replace (period + Z.of_nat (Z.to_nat (i - 1 - period))) with (i - 1) by lia.
  reflexivity.
Qed.

Lemma seed_computes (xs : list Q) (x : Z -> Q) :
  Py.len xs = Py.len prices - 1 ->
  (forall j, 0 <= j < Py.len prices - 1 ->
     exists v, at_index xs j v /\ (v == x j)%Q) ->
  (Py.sum (Py.slice_to xs period) / inject_Z period == Spec.seed_avg x period)%Q.
Proof.
  intros Hlen Hxs. unfold Spec.seed_avg.
  rewrite slice_to_in_range by lia.
  rewrite sum_window by (unfold Py.len in *; cbn; lia).
  rewrite (sigma_ext (Spec.price_at xs) x); [reflexivity|].
  intros j Hj. destruct (Hxs j) as (v & Hv & Hx); [lia|].
  rewrite (price_at_index xs j v Hv). assumption.
Qed.

Lemma rsi_computes :
  exists rs,
    calculate_rsi prices period = Ok rs /\
    Py.len rs = Py.len prices /\
    forall i, 0 <= i < Py.len prices ->
      exists v, at_index rs i v /\ opt_equiv v (Spec.rsi prices period i).
Proof.
  unfold calculate_rsi.
  destruct (Z.leb_spec period 0); [lia|].
  destruct (Z.ltb_spec (Py.len prices) (period + 1)); [lia|].
  destruct deltas_compute as (deltas & -> & Hdlen & Hd). cbn [bind].
  set (gains := map (fun delta => Py.max delta 0) deltas).
  set (losses := map (fun delta => Qabs (Py.min delta 0)) deltas).
  assert (Hg : forall j, 0 <= j < Py.len prices - 1 ->
                 exists v, at_index gains j v /\ (v == Spec.gain_at prices j)%Q).
  { intros j Hj. eexists. split; [apply at_index_map, Hd, Hj|].
    apply py_max_0. }
  assert (Hl : forall j, 0 <= j < Py.len prices - 1 ->
                 exists v, at_index losses j v /\ (v == Spec.loss_at prices j)%Q).
  { intros j Hj. eexists. split; [apply at_index_map, Hd, Hj|].
    apply py_abs_min_0. }
  assert (Hglen : Py.len gains = Py.len prices - 1).
  { unfold gains. rewrite len_map. assumption. }
  assert (Hllen : Py.len losses = Py.len prices - 1).
  { unfold losses. rewrite len_map. assumption. }
  pose proof (inject_Z_pos_nonzero period period_pos) as Hp0.
  rewrite !div_ok by assumption. cbn [bind].
  pose proof (seed_computes gains _ Hglen Hg) as Hsg.
  pose proof (seed_computes losses _ Hllen Hl) as Hsl.
  set (g0 := (Py.sum (Py.slice_to gains period) / inject_Z period)%Q) in *.
  set (l0 := (Py.sum (Py.slice_to losses period) / inject_Z period)%Q) in *.
  assert (Hg0 : (g0 == Spec.avg_gain_at prices period period)%Q).
  { unfold Spec.avg_gain_at. rewrite Z.sub_diag. exact Hsg. }
  assert (Hl0 : (l0 == Spec.avg_loss_at prices period period)%Q).
  { unfold Spec.avg_loss_at. rewrite Z.sub_diag. exact Hsl. }
  rewrite rsi_value_computes;
    [|rewrite Hg0; apply avg_gain_at_nonneg|rewrite Hl0; apply avg_loss_at_nonneg].
  match goal with
  | |- context [Py.for_each ?r ?b ?s] =>
      destruct (for_each_range (rsi_inv prices period) b
                  (period + 1) (Py.len prices) s)
        as (final & -> & Hlen & _ & _ & Hfinal)
  end.
  - assumption.
  - unfold rsi_inv. cbn [rs_values avg_gain avg_loss].
    split; [rewrite len_app, len_replicate; lia|].
    replace (period + 1 - 1) with period by lia.
    split; [assumption|]. split; [assumption|].
    intros k Hk. destruct (Z.eq_dec k period) as [-> | Hne].
    + eexists. split.
      * rewrite <- (len_replicate (@None Q) period) at 2 by lia.
        apply at_index_app_new.
      * unfold Spec.rsi. destruct (Z.ltb_spec period period); [lia|].
        cbn [opt_equiv].
        rewrite (rsi_of_compat _ _ _ _ Hg0 Hl0). reflexivity.
    + exists None. split.
      * apply at_index_app_old, at_index_replicate. lia.
      * unfold Spec.rsi. destruct (Z.ltb_spec k period); [exact I|lia].
  - intros i st Hi (Hlen & Hag & Hal & Hold).
    destruct (Hg (i - 1)) as (gain & Hgi & Hgv); [lia|].
    destruct (Hl (i - 1)) as (loss & Hli & Hlv); [lia|].
    rewrite (index_ok _ _ _ Hgi), (index_ok _ _ _ Hli). cbn [bind].
    rewrite !div_ok by assumption. cbn [bind].
    set (g1 := ((avg_gain st * inject_Z (period - 1) + gain) / inject_Z period)%Q).
    set (l1 := ((avg_loss st * inject_Z (period - 1) + loss) / inject_Z period)%Q).
    assert (Hg1 : (g1 == Spec.avg_gain_at prices period i)%Q).
    { unfold g1, Spec.avg_gain_at. rewrite wilder_step by lia.
      fold (Spec.avg_gain_at prices period (i - 1)).
      rewrite Hag, Hgv, inject_Z_pred. reflexivity. }
    assert (Hl1 : (l1 == Spec.avg_loss_at prices period i)%Q).
    { unfold l1, Spec.avg_loss_at. rewrite wilder_step by lia.
      fold (Spec.avg_loss_at prices period (i - 1)).
      rewrite Hal, Hlv, inject_Z_pred. reflexivity. }
    rewrite rsi_value_computes;
      [|rewrite Hg1; apply avg_gain_at_nonneg|rewrite Hl1; apply avg_loss_at_nonneg].
    eexists. split; [reflexivity|].
    unfold rsi_inv. cbn [rs_values avg_gain avg_loss].
    split; [rewrite len_app; lia|].
    replace (i + 1 - 1) with i by lia.
    split; [assumption|]. split; [assumption|].
    intros k Hk. destruct (Z.eq_dec k i) as [-> | Hne].
    + eexists. split; [rewrite <- Hlen; apply at_index_app_new|].
      unfold Spec.rsi. destruct (Z.ltb_spec i period); [lia|].
      cbn [opt_equiv].
      rewrite (rsi_of_compat _ _ _ _ Hg1 Hl1). reflexivity.
    + destruct (Hold k) as (w & Hw & Hs); [lia|].
      exists w. split; [apply at_index_app_old|]; assumption.
  - cbn [bind]. eexists. split; [reflexivity|].
    split; [assumption|]. exact Hfinal.
Qed.

End RSI.

(** ** Degraded and failing calls *)

Lemma rsi_short (prices : list Q) (period : Z) :
  1 <= period -> Py.len prices < period + 1 ->
  calculate_rsi prices period = Ok (Py.replicate None (Py.len prices)).
Proof.
  intros Hp Hlen. unfold calculate_rsi.
  destruct (Z.leb_spec period 0); [lia|].
  destruct (Z.ltb_spec (Py.len prices) (period + 1)); [reflexivity|lia].
Qed.

Lemma rsi_total (prices : list Q) (period : Z) :
  1 <= period ->
  exists rs, calculate_rsi prices period = Ok rs /\ Py.len rs = Py.len prices.
Proof.
  intros Hp. destruct (Z.lt_ge_cases (Py.len prices) (period + 1)) as [Hs|Hl].
  - exists (Py.replicate None (Py.len prices)).
    split; [apply rsi_short; assumption|].
    apply len_replicate, len_nonneg.
  - destruct (rsi_computes prices period Hp Hl) as (rs & Hrs & Hlen & _).
    exists rs. split; assumption.
Qed.

Lemma moving_average_raises (data : list Q) (period : Z) :
  period <= 0 ->
  calculate_moving_average data period
  = Raise (ValueError "Period must be positive").
Proof.
  intros Hp. unfold calculate_moving_average.
  destruct (Z.leb_spec period 0); [reflexivity|lia].
Qed.

Lemma rsi_raises (prices : list Q) (period : Z) :
  period <= 0 ->
  calculate_rsi prices period = Raise (ValueError "RSI period must be positive").
Proof.
  intros Hp. unfold calculate_rsi.
  destruct (Z.leb_spec period 0); [reflexivity|lia].
Qed.

(** ** The signal rule *)

Lemma gt_some (x y : Q) :
  Py.gt (Some x) (Some y) = Ok (if Qlt_le_dec y x then true else false).
Proof.
  unfold Py.gt. destruct (Qlt_le_dec y x) as [H|H].
  - rewrite (proj1 (Qgt_alt _ _) H). reflexivity.
  - pose proof (proj1 (Qle_alt _ _) H) as Hc.
    destruct (x ?= y)%Q eqn:E; congruence.
Qed.

Lemma lt_some (x y : Q) :
  Py.lt (Some x) (Some y) = Ok (if Qlt_le_dec x y then true else false).
Proof.
  unfold Py.lt. destruct (Qlt_le_dec x y) as [H|H].
  - rewrite (proj1 (Qlt_alt _ _) H). reflexivity.
  - pose proof (proj1 (Qge_alt _ _) H) as Hc.
    destruct (x ?= y)%Q eqn:E; congruence.
Qed.

Section Signals.

Variable prices : list Q.
Variables short_period long_period rsi_period : Z.
Variables oversold overbought : Q.
Hypothesis short_pos : 1 <= short_period.
Hypothesis long_pos : 1 <= long_period.
Hypothesis rsi_pos : 1 <= rsi_period.

Lemma signals_compute :
  exists ma_short ma_long rsi signals,
    calculate_moving_average prices short_period = Ok ma_short /\
    calculate_moving_average prices long_period = Ok ma_long /\
    calculate_rsi prices rsi_period = Ok rsi /\
    generate_signals prices short_period long_period rsi_period
      oversold overbought = Ok signals /\
    Py.len signals = Py.len prices /\
    forall i, 0 <= i < Py.len prices ->
      exists s l r,
        at_index ma_short i s /\ at_index ma_long i l /\ at_index rsi i r /\
        at_index signals i (Spec.decide s l r oversold overbought).
Proof.
  destruct (moving_average_computes prices short_period short_pos)
    as (ma_short & Hs & Hslen & _).
  destruct (moving_average_computes prices long_period long_pos)
    as (ma_long & Hl & Hllen & _).
  destruct (rsi_total prices rsi_period rsi_pos) as (rsi & Hr & Hrlen).
  exists ma_short, ma_long, rsi.
  unfold generate_signals. rewrite Hs, Hl, Hr. cbn [bind].
  match goal with
  | |- context [Py.for_each ?r ?b ?s] =>
      destruct (for_each_range
                  (signals_inv oversold overbought ma_short ma_long rsi) b
                  0 (Py.len prices) s) as (signals & Hsig & Hlen & Hall)
  end.
  - apply len_nonneg.
  - split; [reflexivity|]. intros k Hk. lia.
  - intros i signals Hi [Hlen Hold].
    destruct (at_index_exists ma_short i) as (s & Hsi); [lia|].
    destruct (at_index_exists ma_long i) as (l & Hli); [lia|].
    destruct (at_index_exists rsi i) as (r & Hri); [lia|].
    assert (Hnew : forall v, v = Spec.decide s l r oversold overbought ->
              signals_inv oversold overbought ma_short ma_long rsi (i + 1) (signals ++ [v])).
    { intros v ->. split; [rewrite len_app; lia|].
      intros k Hk. destruct (Z.eq_dec k i) as [-> | Hne].
      - exists s, l, r. repeat (split; [assumption|]).
        rewrite <- Hlen. apply at_index_app_new.
      - destruct (Hold k) as (s' & l' & r' & H1 & H2 & H3 & H4); [lia|].
        exists s', l', r'. repeat (split; [assumption|]).
        apply at_index_app_old. assumption. }
    assert (Hdone : forall v, v = Spec.decide s l r oversold overbought ->
              exists s', Ok (signals ++ [v]) = Ok s' /\
                         signals_inv oversold overbought ma_short ma_long rsi (i + 1) s').
    { intros v Hv. eexists. split; [reflexivity|]. apply Hnew. assumption. }
    rewrite !(index_ok _ _ _ Hsi). cbn [bind].
    destruct s as [s|]; cbn [Py.is_none bind]; [|apply Hdone; reflexivity].
    rewrite !(index_ok _ _ _ Hli). cbn [bind].
    destruct l as [l|]; cbn [Py.is_none bind]; [|apply Hdone; reflexivity].
    rewrite !(index_ok _ _ _ Hri). cbn [bind].
    destruct r as [r|]; cbn [Py.is_none bind]; [|apply Hdone; reflexivity].
    rewrite !gt_some, !lt_some. cbn [Spec.decide] in Hdone.
    destruct (Qlt_le_dec l s) as [Habove|Habove]; cbn [bind].
    + destruct (Qlt_le_dec r oversold); cbn [bind]; [apply Hdone; reflexivity|].
      destruct (Qlt_le_dec s l) as [Hbelow|Hbelow]; [lra|].
      cbn [bind]. apply Hdone; reflexivity.
    + destruct (Qlt_le_dec s l) as [Hbelow|Hbelow]; cbn [bind].
      * destruct (Qlt_le_dec overbought r); cbn [bind]; apply Hdone; reflexivity.
      * apply Hdone; reflexivity.
  - exists signals. repeat (split; [reflexivity || assumption|]). exact Hall.
Qed.

End Signals.

(** ** Reading the invariants at one index *)

Lemma opt_equiv_none (v : option Q) : opt_equiv v None -> v = None.
Proof. destruct v; cbn; [contradiction|reflexivity]. Qed.

Lemma opt_equiv_some (v : option Q) (q : Q) :
  opt_equiv v (Some q) -> exists w, v = Some w /\ (w == q)%Q.
Proof.
  destruct v as [w|]; cbn; [|contradiction].
  intros H. exists w. split; [reflexivity|assumption].
Qed.

Lemma len_length {A B : Type} (l : list A) (l' : list B) :
  Py.len l = Py.len l' -> List.length l = List.length l'.
Proof. unfold Py.len. lia. Qed.

Lemma sma_undefined (data : list Q) (period i : Z) :
  i <= period - 2 -> Spec.sma data period i = None.
Proof.
  intros H. unfold Spec.sma. destruct (Z.leb_spec i (period - 2)); [reflexivity|lia].
Qed.

Lemma sma_defined (data : list Q) (period i : Z) :
  period - 1 <= i ->
  Spec.sma data period i = Some (Spec.window_mean data period i).
Proof.
  intros H. unfold Spec.sma. destruct (Z.leb_spec i (period - 2)); [lia|reflexivity].
Qed.

Lemma rsi_undefined (prices : list Q) (period i : Z) :
  i < period -> Spec.rsi prices period i = None.
Proof.
  intros H. unfold Spec.rsi. destruct (Z.ltb_spec i period); [reflexivity|lia].
Qed.

Lemma rsi_defined (prices : list Q) (period i : Z) :
  period <= i ->
  Spec.rsi prices period i
  = Some (Spec.rsi_of (Spec.avg_gain_at prices period i)
                      (Spec.avg_loss_at prices period i)).
Proof.
  intros H. unfold Spec.rsi. destruct (Z.ltb_spec i period); [lia|reflexivity].
Qed.

(** ** The claims *)

(** C2.  For a period of at least 1, [calculate_moving_average] returns a
    list as long as [data]; its element at index [i] is [None] when
    [i <= period - 2] and otherwise the arithmetic mean of
    [data[i-period+1 .. i]].  In particular
    [calculate_moving_average([1,2,3,4,5], 3)] is [[None, None, 2, 3, 4]]. *)
Theorem moving_average_window_mean :
  (forall (data : list Q) (period : Z),
     1 <= period ->
     exists ma,
       calculate_moving_average data period = Ok ma /\
       List.length ma = List.length data /\
       (forall i, 0 <= i < Py.len data -> i <= period - 2 ->
          at_index ma i None) /\
       (forall i, 0 <= i < Py.len data -> period - 1 <= i ->
          exists v, at_index ma i (Some v) /\
                    (v == Spec.window_mean data period i)%Q)) /\
  (exists ma,
     calculate_moving_average [1; 2; 3; 4; 5]%Q 3 = Ok ma /\
     Forall2 opt_equiv ma [None; None; Some 2; Some 3; Some 4]%Q).
Proof.
  split.
  - intros data period Hp.
    destruct (moving_average_computes data period Hp) as (ma & Hma & Hlen & Hall).
    exists ma. split; [assumption|]. split; [apply len_length; assumption|].
    split.
    + intros i Hi Hu. destruct (Hall i Hi) as (v & Hv & He).
      rewrite sma_undefined in He by assumption.
      apply opt_equiv_none in He. subst v. assumption.
    + intros i Hi Hd. destruct (Hall i Hi) as (v & Hv & He).
      rewrite sma_defined in He by assumption.
      apply opt_equiv_some in He. destruct He as (w & -> & Hw).
      exists w. split; assumption.
  - eexists. split; [vm_compute; reflexivity|].
    repeat constructor.
Qed.

(** C1.  With [period >= 1] and at least [period + 1] prices,
    [calculate_rsi] returns [None] at the indices [0 .. period-1]; at index
    [period] it returns [100 - 100/(1 + RS)] with RS computed from the seed
    averages, the arithmetic means of the first [period] gains and losses;
    at every index [i] from [period+1] to [n-1] the value is computed from
    the Wilder averages
    [avg' = (avg * (period - 1) + x[i-1]) / period]
    of the previous step's smoothed averages. *)
Theorem calculate_rsi_wilder_smoothing (prices : list Q) (period : Z) :
  1 <= period -> period + 1 <= Py.len prices ->
  exists rs,
    calculate_rsi prices period = Ok rs /\
    (forall i, 0 <= i <= period - 1 -> at_index rs i None) /\
    (exists v,
       at_index rs period (Some v) /\
       (v == 100 - 100 / (1 + Spec.rs_of
                                (Spec.seed_avg (Spec.gain_at prices) period)
                                (Spec.seed_avg (Spec.loss_at prices) period)))%Q) /\
    (forall i, period + 1 <= i <= Py.len prices - 1 ->
       exists v,
         at_index rs i (Some v) /\
         (v == 100 - 100 / (1 + Spec.rs_of
                                  (Spec.avg_gain_at prices period i)
                                  (Spec.avg_loss_at prices period i)))%Q /\
         (Spec.avg_gain_at prices period i
          == (Spec.avg_gain_at prices period (i - 1) * (inject_Z period - 1)
              + Spec.gain_at prices (i - 1)) / inject_Z period)%Q /\
         (Spec.avg_loss_at prices period i
          == (Spec.avg_loss_at prices period (i - 1) * (inject_Z period - 1)
              + Spec.loss_at prices (i - 1)) / inject_Z period)%Q) /\
    Spec.avg_gain_at prices period period
    = Spec.seed_avg (Spec.gain_at prices) period /\
    Spec.avg_loss_at prices period period
    = Spec.seed_avg (Spec.loss_at prices) period.
Proof.
  intros Hp Hn.
  destruct (rsi_computes prices period Hp Hn) as (rs & Hrs & Hlen & Hall).
  assert (Hseed : forall x, Spec.wilder x period (Z.to_nat (period - period))
                            = Spec.seed_avg x period).
  { intros x. rewrite Z.sub_diag. reflexivity. }
  exists rs. split; [assumption|]. split; [|split; [|split; [|split]]].
  - intros i Hi. destruct (Hall i) as (v & Hv & He); [lia|].
    rewrite rsi_undefined in He by lia.
    apply opt_equiv_none in He. subst v. assumption.
  - destruct (Hall period) as (v & Hv & He); [lia|].
    rewrite rsi_defined in He by lia.
    apply opt_equiv_some in He. destruct He as (w & -> & Hw).
    exists w. split; [assumption|].
    unfold Spec.avg_gain_at, Spec.avg_loss_at in Hw.
    rewrite !Hseed in Hw. exact Hw.
  - intros i Hi. destruct (Hall i) as (v & Hv & He); [lia|].
    rewrite rsi_defined in He by lia.
    apply opt_equiv_some in He. destruct He as (w & -> & Hw).
    exists w. split; [assumption|]. split; [exact Hw|].
    split; apply wilder_step; lia.
  - apply Hseed.
  - apply Hseed.
Qed.

(** The signal rule, read as propositions. *)
Lemma decide_undefined (s l r : option Q) (oversold overbought : Q) :
  s = None \/ l = None \/ r = None ->
  Spec.decide s l r oversold overbought = "HOLD"%string.
Proof.
  intros H. destruct s, l, r; try reflexivity.
  destruct H as [H | [H | H]]; discriminate H.
Qed.

Lemma decide_defined (a b c oversold overbought : Q) :
  let sig := Spec.decide (Some a) (Some b) (Some c) oversold overbought in
  (sig = "BUY"%string <-> (a > b /\ c < oversold)%Q) /\
  (sig = "SELL"%string <->
     (~ (a > b /\ c < oversold) /\ a < b /\ c > overbought)%Q) /\
  (sig = "HOLD"%string <->
     (~ (a > b /\ c < oversold) /\ ~ (a < b /\ c > overbought))%Q) /\
  ((a == b)%Q -> sig = "HOLD"%string).
Proof.
  cbn [Spec.decide].
  destruct (Qlt_le_dec b a) as [Hab|Hab];
    [destruct (Qlt_le_dec c oversold) as [Hc|Hc]
    |destruct (Qlt_le_dec a b) as [Hba|Hba];
       [destruct (Qlt_le_dec overbought c) as [Hc|Hc]|]];
    (split; [|split; [|split]];
     [split; intros H|split; intros H|split; intros H|intros H]);
    first [discriminate H | reflexivity | q_cases].
Qed.

Lemma decide_enum (s l r : option Q) (oversold overbought : Q) :
  let sig := Spec.decide s l r oversold overbought in
  sig = "BUY"%string \/ sig = "SELL"%string \/ sig = "HOLD"%string.
Proof.
  destruct s as [a|], l as [b|], r as [c|]; cbn [Spec.decide]; auto.
  destruct (Qlt_le_dec b a); [destruct (Qlt_le_dec c oversold); auto|].
  destruct (Qlt_le_dec a b); [destruct (Qlt_le_dec overbought c); auto|auto].
Qed.

Lemma Forall_at_index {A : Type} (P : A -> Prop) (l : list A) :
  (forall i, 0 <= i < Py.len l -> exists v, at_index l i v /\ P v) ->
  Forall P l.
Proof.
  intros H. apply Forall_forall. intros x Hx.
  apply In_nth_error in Hx. destruct Hx as (n & Hn).
  assert (Hlt : (n < List.length l)%nat) by (apply nth_error_Some; congruence).
  destruct (H (Z.of_nat n)) as (v & [_ Hv] & HP); [unfold Py.len; lia|].
  rewrite Nat2Z.id in Hv. congruence.
Qed.

(** C3.  With periods of at least 1 and any thresholds, the signal at each
    index is HOLD when one of [ma_short[i]], [ma_long[i]], [rsi[i]] is
    [None]; otherwise it is BUY exactly when [ma_short[i] > ma_long[i]] and
    [rsi[i] < oversold], otherwise SELL exactly when
    [ma_short[i] < ma_long[i]] and [rsi[i] > overbought], otherwise HOLD; a
    tie of the two averages gives HOLD. *)
Theorem generate_signals_rule (prices : list Q)
    (short_period long_period rsi_period : Z) (oversold overbought : Q) :
  1 <= short_period -> 1 <= long_period -> 1 <= rsi_period ->
  exists ma_short ma_long rsi signals,
    calculate_moving_average prices short_period = Ok ma_short /\
    calculate_moving_average prices long_period = Ok ma_long /\
    calculate_rsi prices rsi_period = Ok rsi /\
    generate_signals prices short_period long_period rsi_period
      oversold overbought = Ok signals /\
    forall i, 0 <= i < Py.len prices ->
      exists s l r sig,
        at_index ma_short i s /\ at_index ma_long i l /\ at_index rsi i r /\
        at_index signals i sig /\
        (s = None \/ l = None \/ r = None -> sig = "HOLD"%string) /\
        (forall a b c, s = Some a -> l = Some b -> r = Some c ->
           (sig = "BUY"%string <-> (a > b /\ c < oversold)%Q) /\
           (sig = "SELL"%string <->
              (~ (a > b /\ c < oversold) /\ a < b /\ c > overbought)%Q) /\
           (sig = "HOLD"%string <->
              (~ (a > b /\ c < oversold) /\ ~ (a < b /\ c > overbought))%Q) /\
           ((a == b)%Q -> sig = "HOLD"%string)).
Proof.
  intros Hs Hl Hr.
  destruct (signals_compute prices short_period long_period rsi_period
              oversold overbought Hs Hl Hr)
    as (ma_short & ma_long & rsi & signals & H1 & H2 & H3 & H4 & _ & Hall).
  exists ma_short, ma_long, rsi, signals.
  repeat (split; [assumption|]).
  intros i Hi. destruct (Hall i Hi) as (s & l & r & Hsi & Hli & Hri & Hsig).
  exists s, l, r, (Spec.decide s l r oversold overbought).
  repeat (split; [assumption|]). split.
  - apply decide_undefined.
  - intros a b c -> -> ->. apply decide_defined.
Qed.

(** C5.  With [period >= 1] and fewer than [period + 1] prices,
    [calculate_rsi] raises nothing and returns as many [None] as there are
    prices. *)
Theorem rsi_insufficient_data (prices : list Q) (period : Z) :
  1 <= period -> Py.len prices < period + 1 ->
  calculate_rsi prices period = Ok (repeat None (List.length prices)).
Proof.
  intros Hp Hlen. rewrite rsi_short by assumption.
  unfold Py.replicate, Py.len. rewrite Nat2Z.id. reflexivity.
Qed.

(** C6.  With a period of 0 or less, [calculate_moving_average] and
    [calculate_rsi] raise [ValueError] and return nothing;
    [generate_signals] raises the same error as soon as one of its three
    periods is 0 or less. *)
Theorem invalid_period_raises :
  (forall (data : list Q) (period : Z),
     period <= 0 ->
     calculate_moving_average data period
     = Raise (ValueError "Period must be positive") /\
     calculate_rsi data period
     = Raise (ValueError "RSI period must be positive")) /\
  (forall (prices : list Q) (short_period long_period rsi_period : Z)
          (oversold overbought : Q),
     short_period <= 0 \/ long_period <= 0 \/ rsi_period <= 0 ->
     generate_signals prices short_period long_period rsi_period
       oversold overbought
     = Raise (ValueError
                (if (short_period <=? 0) || (long_period <=? 0)
                 then "Period must be positive"
                 else "RSI period must be positive"))).
Proof.
  split.
  - intros data period Hp.
    split; [apply moving_average_raises|apply rsi_raises]; assumption.
  - intros prices sp lp rp os ob Hbad. unfold generate_signals.
    destruct (Z.leb_spec sp 0) as [Hs|Hs].
    { rewrite moving_average_raises by assumption. reflexivity. }
    destruct (moving_average_computes prices sp ltac:(lia)) as (ms & -> & _).
    cbn [bind orb].
    destruct (Z.leb_spec lp 0) as [Hl|Hl].
    { rewrite moving_average_raises by assumption. reflexivity. }
    destruct (moving_average_computes prices lp ltac:(lia)) as (ml & -> & _).
    cbn [bind].
    rewrite rsi_raises by lia. reflexivity.
Qed.


(** C4.  When the smoothed average loss is 0 at a defined index, the RS
    expression evaluates to 0 and [calculate_rsi] returns 0 at that index;
    for [calculate_rsi([1,2,3,4,5,6,7,8], 3)] every defined value is 0. *)
Theorem rsi_zero_loss_fallback :
  (forall (prices : list Q) (period : Z),
     1 <= period -> period + 1 <= Py.len prices ->
     exists rs,
       calculate_rsi prices period = Ok rs /\
       forall i, period <= i < Py.len prices ->
         (Spec.avg_loss_at prices period i == 0)%Q ->
         exists v, at_index rs i (Some v) /\ (v == 0)%Q) /\
  (forall g l : Q,
     (l == 0)%Q ->
     (if Py.ne l 0 then Py.div g l else Ok 0%Q) = Ok 0%Q) /\
  calculate_rsi [1; 2; 3; 4; 5; 6; 7; 8]%Q 3
  = Ok [None; None; None; Some 0; Some 0; Some 0; Some 0; Some 0]%Q.
Proof.
  split; [|split].
  - intros prices period Hp Hn.
    destruct (rsi_computes prices period Hp Hn) as (rs & Hrs & _ & Hall).
    exists rs. split; [assumption|].
    intros i Hi Hzero. destruct (Hall i) as (v & Hv & He); [lia|].
    rewrite rsi_defined in He by lia.
    apply opt_equiv_some in He. destruct He as (w & -> & Hw).
    exists w. split; [assumption|].
    rewrite Hw. apply rsi_of_zero_loss. assumption.
  - intros g l Hl. unfold Py.ne.
    rewrite (Qeq_eq_bool _ _ Hl). reflexivity.
  - vm_compute. reflexivity.
Qed.

(** C7.  With periods of at least 1, every output is as long as the price
    series: the moving average, the RSI (whether all undefined or
    computed) and the signals; and every signal is one of BUY, SELL,
    HOLD. *)
Theorem outputs_index_aligned (s : list Q)
    (p short_period long_period rsi_period : Z) (oversold overbought : Q) :
  1 <= p -> 1 <= short_period -> 1 <= long_period -> 1 <= rsi_period ->
  (exists ma,
     calculate_moving_average s p = Ok ma /\
     List.length ma = List.length s) /\
  (exists rs,
     calculate_rsi s p = Ok rs /\ List.length rs = List.length s) /\
  (exists signals,
     generate_signals s short_period long_period rsi_period
       oversold overbought = Ok signals /\
     List.length signals = List.length s /\
     Forall (fun x => x = "BUY" \/ x = "SELL" \/ x = "HOLD")%string signals).
Proof.
  intros Hp Hs Hl Hr. split; [|split].
  - destruct (moving_average_computes s p Hp) as (ma & Hma & Hlen & _).
    exists ma. split; [assumption|apply len_length; assumption].
  - destruct (rsi_total s p Hp) as (rs & Hrs & Hlen).
    exists rs. split; [assumption|apply len_length; assumption].
  - destruct (signals_compute s short_period long_period rsi_period
                oversold overbought Hs Hl Hr)
      as (ms & ml & rsi & signals & _ & _ & _ & Hsig & Hlen & Hall).
    exists signals. split; [assumption|].
    split; [apply len_length; assumption|].
    apply Forall_at_index. intros i Hi. rewrite Hlen in Hi.
    destruct (Hall i Hi) as (a & b & c & _ & _ & _ & Hv).
    eexists. split; [exact Hv|]. apply decide_enum.
Qed.




(** The moving average of a constant series. *)
Lemma sigma_const (f : Z -> Q) (c : Q) (lo : Z) (n : nat) :
  (forall j, lo <= j < lo + Z.of_nat n -> (f j == c)%Q) ->
  (Spec.sigma f lo n == inject_Z (Z.of_nat n) * c)%Q.
Proof.
  revert lo. induction n as [|n IH]; intros lo H; cbn [Spec.sigma].
  - cbn. ring.
  - rewrite (H lo) by lia. rewrite IH by (intros j Hj; apply H; lia).
    rewrite Nat2Z.inj_succ. unfold Z.succ. rewrite inject_Z_plus. ring.
Qed.

Lemma price_at_constant (c : Q) (series : list Q) (j : Z) :
  constant_series c series -> 0 <= j < Py.len series ->
  (Spec.price_at series j == c)%Q.
Proof.
  intros Hc Hj. unfold Spec.price_at, Py.len in *.
  apply (proj1 (Forall_nth _ series) Hc). lia.
Qed.

Lemma window_mean_constant (c : Q) (series : list Q) (period i : Z) :
  constant_series c series -> 1 <= period ->
  period - 1 <= i < Py.len series ->
  (Spec.window_mean series period i == c)%Q.
Proof.
  intros Hc Hp Hi. unfold Spec.window_mean.
  rewrite (sigma_const _ c).
  - rewrite Z2Nat.id by lia. field. apply inject_Z_pos_nonzero. assumption.
  - intros j Hj. apply price_at_constant; [assumption|lia].
Qed.

Lemma moving_average_constant (c : Q) (series : list Q) (period : Z)
    (ma : list (option Q)) :
  constant_series c series -> 1 <= period ->
  calculate_moving_average series period = Ok ma ->
  forall i v, at_index ma i (Some v) -> (v == c)%Q.
Proof.
  intros Hc Hp Hma i v Hv.
  destruct (moving_average_computes series period Hp) as (ma' & Hma' & Hlen & Hall).
  assert (ma' = ma) by congruence. subst ma'.
  pose proof (at_index_lt _ _ _ Hv) as Hi. rewrite Hlen in Hi.
  destruct (Hall i Hi) as (w & Hw & He).
  rewrite <- (at_index_inj _ _ _ _ Hv Hw) in He.
  destruct (Z.le_gt_cases i (period - 2)) as [Hu|Hd].
  - rewrite sma_undefined in He by assumption. contradiction.
  - rewrite sma_defined in He by lia. cbn [opt_equiv] in He.
    rewrite He. apply window_mean_constant; [assumption|assumption|lia].
Qed.

(** In exact arithmetic a constant series has constant averages and only
    HOLD signals. *)
Lemma constant_series_hold_exact (c : Q) (prices : list Q)
    (short_period long_period rsi_period : Z) (oversold overbought : Q) :
  constant_series c prices ->
  1 <= short_period -> 1 <= long_period -> 1 <= rsi_period ->
  exists ma_short ma_long signals,
    calculate_moving_average prices short_period = Ok ma_short /\
    calculate_moving_average prices long_period = Ok ma_long /\
    (forall i v, at_index ma_short i (Some v) -> (v == c)%Q) /\
    (forall i v, at_index ma_long i (Some v) -> (v == c)%Q) /\
    (forall i a b, at_index ma_short i (Some a) ->
                   at_index ma_long i (Some b) -> (a == b)%Q) /\
    generate_signals prices short_period long_period rsi_period
      oversold overbought = Ok signals /\
    List.length signals = List.length prices /\
    Forall (fun x => x = "HOLD"%string) signals.
Proof.
  intros Hc Hs Hl Hr.
  destruct (signals_compute prices short_period long_period rsi_period
              oversold overbought Hs Hl Hr)
    as (ms & ml & rsi & signals & Hms & Hml & _ & Hsig & Hlen & Hall).
  pose proof (moving_average_constant c prices short_period ms Hc Hs Hms) as Hcs.
  pose proof (moving_average_constant c prices long_period ml Hc Hl Hml) as Hcl.
  exists ms, ml, signals.
  repeat (split; [assumption|]).
  split.
  { intros i a b Ha Hb. rewrite (Hcs i a Ha), (Hcl i b Hb). reflexivity. }
  split; [assumption|]. split; [apply len_length; assumption|].
  apply Forall_at_index. intros i Hi. rewrite Hlen in Hi.
  destruct (Hall i Hi) as (s & l & r & Hsi & Hli & Hri & Hv).
  eexists. split; [exact Hv|].
  destruct s as [a|]; [|apply decide_undefined; auto].
  destruct l as [b|]; [|apply decide_undefined; auto].
  destruct r as [q|]; [|apply decide_undefined; auto].
  apply decide_defined.
  rewrite (Hcs i a Hsi), (Hcl i b Hli). reflexivity.
Qed.

(** In binary64 the averages of a constant series need not agree: three
    values 0.1 sum to 0.30000000000000004, so the average of period 3 is
    0.10000000000000002, above the average 0.1 of period 5, and with the
    RSI 0 below [oversold] the signal is BUY from index 4 on. *)
Lemma constant_series_binary64_buys :
  B64.calculate_moving_average B64.sum_sequential (repeat 0.1%float 10) 3
  = Ok ([None; None] ++ repeat (Some 0.10000000000000002%float) 8) /\
  B64.calculate_moving_average B64.sum_compensated (repeat 0.1%float 10) 3
  = Ok ([None; None] ++ repeat (Some 0.10000000000000002%float) 8) /\
  (0.10000000000000002 =? 0.1)%float = false /\
  B64.generate_signals B64.sum_sequential (repeat 0.1%float 10) 3 5 3 30 70
  = Ok (repeat "HOLD"%string 4 ++ repeat "BUY"%string 6)%list /\
  B64.generate_signals B64.sum_compensated (repeat 0.1%float 10) 3 5 3 30 70
  = Ok (repeat "HOLD"%string 4 ++ repeat "BUY"%string 6)%list.
Proof. repeat split; vm_compute; reflexivity. Qed.

(** The binary64 functions on the series [ten_tens]. *)
Lemma in_range (x lo hi : Z) : lo <= x < hi -> In x (Py.range lo hi).
Proof.
  intros H. unfold Py.range. apply in_map_iff.
  exists (Z.to_nat (x - lo)). split; [lia|]. apply in_seq. lia.
Qed.

Lemma binary64_average_long_period (sum : list float -> float)
    (data : list float) (period : Z) :
  Py.len data < period ->
  B64.calculate_moving_average sum data period
  = Ok (repeat None (List.length data)).
Proof.
  intros Hlong. pose proof (len_nonneg data) as Hn.
  unfold B64.calculate_moving_average.
  destruct (Z.leb_spec period 0); [lia|].
  match goal with
  | |- context [Py.for_each ?r ?b ?s] =>
      destruct (for_each_range
                  (fun i (ma : list (option float)) =>
                     ma = repeat None (Z.to_nat i))
                  b 0 (Py.len data) s) as (ma & -> & ->)
  end.
  - assumption.
  - reflexivity.
  - intros i ma Hi ->. destruct (Z.ltb_spec (i + 1) period); [|lia].
    eexists. split; [reflexivity|].
    replace (Z.to_nat (i + 1)) with (Z.to_nat i + 1)%nat by lia.
    rewrite repeat_app. reflexivity.
  - unfold Py.len. rewrite Nat2Z.id. reflexivity.
Qed.

Lemma binary64_rsi_short (sum : list float -> float)
    (prices : list float) (period : Z) :
  1 <= period -> Py.len prices < period + 1 ->
  B64.calculate_rsi sum prices period
  = Ok (Py.replicate None (Py.len prices)).
Proof.
  intros Hp Hlen. unfold B64.calculate_rsi.
  destruct (Z.leb_spec period 0); [lia|].
  destruct (Z.ltb_spec (Py.len prices) (period + 1)); [reflexivity|lia].
Qed.

Lemma ten_tens_average_clip (sum : list float -> float) (period : Z) :
  B64.calculate_moving_average sum ten_tens period
  = B64.calculate_moving_average sum ten_tens (Z.min period 11).
Proof.
  destruct (Z.le_gt_cases period 10) as [Hle|Hgt].
  - rewrite Z.min_l by lia. reflexivity.
  - rewrite Z.min_r by lia.
    rewrite !binary64_average_long_period by (unfold Py.len; cbn; lia).
    reflexivity.
Qed.

Lemma ten_tens_rsi_clip (sum : list float -> float) (period : Z) :
  1 <= period ->
  B64.calculate_rsi sum ten_tens period
  = B64.calculate_rsi sum ten_tens (Z.min period 10).
Proof.
  intros Hp. destruct (Z.le_gt_cases period 10) as [Hle|Hgt].
  - rewrite Z.min_l by lia. reflexivity.
  - rewrite Z.min_r by lia.
    rewrite !binary64_rsi_short by (unfold Py.len; cbn; lia).
    reflexivity.
Qed.

Lemma ten_tens_signals_clip (sum : list float -> float)
    (sp lp rp : Z) (os ob : float) :
  1 <= rp ->
  B64.generate_signals sum ten_tens sp lp rp os ob
  = B64.generate_signals sum ten_tens (Z.min sp 11) (Z.min lp 11) (Z.min rp 10)
      os ob.
Proof.
  intros Hr. unfold B64.generate_signals.
  rewrite (ten_tens_average_clip sum sp), (ten_tens_average_clip sum lp),
    (ten_tens_rsi_clip sum rp Hr).
  reflexivity.
Qed.

Lemma check_ten_tens_sequential (os ob : float) :
  check_ten_tens B64.sum_sequential os ob = true.
Proof. vm_compute. reflexivity. Qed.

Lemma check_ten_tens_compensated (os ob : float) :
  check_ten_tens B64.sum_compensated os ob = true.
Proof. vm_compute. reflexivity. Qed.

Lemma all_hold_sound (n : nat) (r : result (list string)) :
  all_hold n r = true ->
  exists signals,
    r = Ok signals /\ List.length signals = n /\
    Forall (fun x => x = "HOLD"%string) signals.
Proof.
  destruct r as [l|e]; cbn [all_hold]; [|discriminate].
  intros H. apply andb_true_iff in H. destruct H as [Hlen Hall].
  exists l. split; [reflexivity|].
  split; [apply Nat.eqb_eq; assumption|].
  apply Forall_forall. intros x Hx.
  symmetry. apply String.eqb_eq.
  exact (proj1 (forallb_forall _ l) Hall x Hx).
Qed.

Lemma all_none_or_sound (c : float) (r : result (list (option float))) :
  all_none_or c r = true ->
  exists ma,
    r = Ok ma /\
    Forall (fun v => match v with
                     | None => True
                     | Some x => (x =? c)%float = true
                     end) ma.
Proof.
  destruct r as [l|e]; cbn [all_none_or]; [|discriminate].
  intros H. exists l. split; [reflexivity|].
  apply Forall_forall. intros v Hv.
  pose proof (proj1 (forallb_forall _ l) H v Hv) as Hx.
  destruct v; [assumption|exact I].
Qed.

Lemma ten_tens_holds (sum : list float -> float) :
  (forall os ob, check_ten_tens sum os ob = true) ->
  forall (sp lp rp : Z) (os ob : float),
    1 <= sp -> 1 <= lp -> 1 <= rp ->
    (exists ma,
       B64.calculate_moving_average sum ten_tens sp = Ok ma /\
       Forall (fun v => match v with
                        | None => True
                        | Some x => (x =? 10)%float = true
                        end) ma) /\
    (exists signals,
       B64.generate_signals sum ten_tens sp lp rp os ob = Ok signals /\
       List.length signals = 10%nat /\
       Forall (fun x => x = "HOLD"%string) signals).
Proof.
  intros Hcheck sp lp rp os ob Hs Hl Hr.
  specialize (Hcheck os ob). unfold check_ten_tens in Hcheck.
  apply andb_true_iff in Hcheck. destruct Hcheck as [Hma Hsig].
  split.
  - apply all_none_or_sound. rewrite ten_tens_average_clip.
    apply (proj1 (forallb_forall _ _) Hma). apply in_range. lia.
  - apply all_hold_sound. rewrite ten_tens_signals_clip by assumption.
    pose proof (proj1 (forallb_forall _ _) Hsig (Z.min sp 11)
                  (in_range (Z.min sp 11) 1 12 ltac:(lia))) as H1.
    pose proof (proj1 (forallb_forall _ _) H1 (Z.min lp 11)
                  (in_range (Z.min lp 11) 1 12 ltac:(lia))) as H2.
    exact (proj1 (forallb_forall _ _) H2 (Z.min rp 10)
             (in_range (Z.min rp 10) 1 11 ltac:(lia))).
Qed.

(** C9 (as amended).  In exact arithmetic, for a constant price series, any
    periods of at least 1 and any thresholds, every defined short and long
    moving average equals the constant and every signal is HOLD.  In
    binary64 this holds of the series [[10.0] * 10] of the specification's
    example, for any periods of at least 1, any thresholds and either
    summation. *)
Theorem constant_series_hold :
  (forall (c : Q) (prices : list Q)
          (short_period long_period rsi_period : Z) (oversold overbought : Q),
     constant_series c prices ->
     1 <= short_period -> 1 <= long_period -> 1 <= rsi_period ->
     exists ma_short ma_long signals,
       calculate_moving_average prices short_period = Ok ma_short /\
       calculate_moving_average prices long_period = Ok ma_long /\
       (forall i v, at_index ma_short i (Some v) -> (v == c)%Q) /\
       (forall i v, at_index ma_long i (Some v) -> (v == c)%Q) /\
       (forall i a b, at_index ma_short i (Some a) ->
                      at_index ma_long i (Some b) -> (a == b)%Q) /\
       generate_signals prices short_period long_period rsi_period
         oversold overbought = Ok signals /\
       List.length signals = List.length prices /\
       Forall (fun x => x = "HOLD"%string) signals) /\
  (forall (sum : list float -> float),
     sum = B64.sum_sequential \/ sum = B64.sum_compensated ->
     forall (short_period long_period rsi_period : Z)
            (oversold overbought : float),
       1 <= short_period -> 1 <= long_period -> 1 <= rsi_period ->
       (exists ma,
          B64.calculate_moving_average sum ten_tens short_period = Ok ma /\
          Forall (fun v => match v with
                           | None => True
                           | Some x => (x =? 10)%float = true
                           end) ma) /\
       (exists signals,
          B64.generate_signals sum ten_tens short_period long_period
            rsi_period oversold overbought = Ok signals /\
          List.length signals = 10%nat /\
          Forall (fun x => x = "HOLD"%string) signals)).
Proof.
  split.
  - exact constant_series_hold_exact.
  - intros sum [-> | ->].
    + apply ten_tens_holds. exact check_ten_tens_sequential.
    + apply ten_tens_holds. exact check_ten_tens_compensated.
Qed.



(** ** The claims at concrete inputs *)

Lemma moving_average_window_mean_witness :
  1 <= 3 /\
  exists ma,
    calculate_moving_average [1; 2; 3; 4; 5]%Q 3 = Ok ma /\
    List.length ma = List.length [1; 2; 3; 4; 5]%Q /\
    at_index ma 1 None.
Proof.
  assert (H1 : 1 <= 3) by lia.
  split; [exact H1|].
  destruct moving_average_window_mean as [Hgen _].
  destruct (Hgen [1; 2; 3; 4; 5]%Q 3 H1) as (ma & Hma & Hlen & Hnone & _).
  exists ma. split; [exact Hma|]. split; [exact Hlen|].
  apply Hnone; [unfold Py.len; cbn; lia|lia].
Defined.

Lemma calculate_rsi_wilder_smoothing_witness :
  1 <= 3 /\
  3 + 1 <= Py.len [1; 3; 2; 5; 4; 4; 7; 8]%Q /\
  exists rs,
    calculate_rsi [1; 3; 2; 5; 4; 4; 7; 8]%Q 3 = Ok rs /\
    (forall i, 0 <= i <= 3 - 1 -> at_index rs i None).
Proof.
  assert (H1 : 1 <= 3) by lia.
  assert (H2 : 3 + 1 <= Py.len [1; 3; 2; 5; 4; 4; 7; 8]%Q)
    by (unfold Py.len; cbn; lia).
  split; [exact H1|]. split; [exact H2|].
  destruct (calculate_rsi_wilder_smoothing _ 3 H1 H2) as (rs & Hrs & Hnone & _).
  exists rs. split; [exact Hrs|exact Hnone].
Defined.

Lemma generate_signals_rule_witness :
  1 <= 2 /\ 1 <= 3 /\ 1 <= 3 /\
  exists signals,
    generate_signals [1; 3; 2; 5; 4; 4; 7; 8]%Q 2 3 3 30 70 = Ok signals.
Proof.
  assert (H2 : 1 <= 2) by lia.
  assert (H3 : 1 <= 3) by lia.
  split; [exact H2|]. split; [exact H3|]. split; [exact H3|].
  destruct (generate_signals_rule [1; 3; 2; 5; 4; 4; 7; 8]%Q 2 3 3 30 70
              H2 H3 H3) as (ms & ml & rsi & signals & _ & _ & _ & Hsig & _).
  exists signals. exact Hsig.
Defined.

Lemma rsi_zero_loss_fallback_witness :
  1 <= 3 /\
  3 + 1 <= Py.len [1; 2; 3; 4; 5; 6; 7; 8]%Q /\
  exists rs,
    calculate_rsi [1; 2; 3; 4; 5; 6; 7; 8]%Q 3 = Ok rs /\
    forall i, 3 <= i < Py.len [1; 2; 3; 4; 5; 6; 7; 8]%Q ->
      (Spec.avg_loss_at [1; 2; 3; 4; 5; 6; 7; 8]%Q 3 i == 0)%Q ->
      exists v, at_index rs i (Some v) /\ (v == 0)%Q.
Proof.
  assert (H1 : 1 <= 3) by lia.
  assert (H2 : 3 + 1 <= Py.len [1; 2; 3; 4; 5; 6; 7; 8]%Q)
    by (unfold Py.len; cbn; lia).
  split; [exact H1|]. split; [exact H2|].
  destruct rsi_zero_loss_fallback as [Hgen _].
  exact (Hgen [1; 2; 3; 4; 5; 6; 7; 8]%Q 3 H1 H2).
Defined.

Lemma rsi_insufficient_data_witness :
  1 <= 3 /\
  Py.len [1; 3; 2]%Q < 3 + 1 /\
  calculate_rsi [1; 3; 2]%Q 3 = Ok [None; None; None].
Proof.
  assert (H1 : 1 <= 3) by lia.
  assert (H2 : Py.len [1; 3; 2]%Q < 3 + 1) by (unfold Py.len; cbn; lia).
  split; [exact H1|]. split; [exact H2|].
  exact (rsi_insufficient_data [1; 3; 2]%Q 3 H1 H2).
Defined.

Lemma invalid_period_raises_witness :
  -1 <= 0 /\
  calculate_moving_average [1; 2; 3]%Q (-1)
  = Raise (ValueError "Period must be positive") /\
  calculate_rsi [1; 2; 3]%Q 0
  = Raise (ValueError "RSI period must be positive") /\
  generate_signals [1; 2; 3]%Q 2 3 0 30 70
  = Raise (ValueError "RSI period must be positive").
Proof.
  assert (Hm : -1 <= 0) by lia.
  assert (H0 : 0 <= 0) by lia.
  destruct invalid_period_raises as [Hone Hsig].
  split; [exact Hm|].
  split; [exact (proj1 (Hone [1; 2; 3]%Q (-1) Hm))|].
  split; [exact (proj2 (Hone [1; 2; 3]%Q 0 H0))|].
  exact (Hsig [1; 2; 3]%Q 2 3 0 30%Q 70%Q (or_intror (or_intror H0))).
Defined.

Lemma outputs_index_aligned_witness :
  1 <= 3 /\ 1 <= 2 /\
  exists signals,
    generate_signals [1; 3; 2; 5; 4; 4; 7; 8]%Q 2 3 3 30 70 = Ok signals /\
    List.length signals = 8%nat.
Proof.
  assert (H2 : 1 <= 2) by lia.
  assert (H3 : 1 <= 3) by lia.
  split; [exact H3|]. split; [exact H2|].
  destruct (outputs_index_aligned [1; 3; 2; 5; 4; 4; 7; 8]%Q 3 2 3 3 30 70
              H3 H2 H3 H3) as (_ & _ & signals & Hsig & Hlen & _).
  exists signals. split; [exact Hsig|exact Hlen].
Defined.

(** ** Further properties: what a call returned, read index by index *)

Lemma opt_equiv_sym (a b : option Q) : opt_equiv a b -> opt_equiv b a.
Proof.
  destruct a, b; cbn; try tauto. intros H. symmetry. assumption.
Qed.

Lemma opt_equiv_trans (a b c : option Q) :
  opt_equiv a b -> opt_equiv b c -> opt_equiv a c.
Proof.
  destruct a, b, c; cbn; try tauto. intros H1 H2. rewrite H1. assumption.
Qed.

Lemma ma_view (data : list Q) (period : Z) (ma : list (option Q)) :
  1 <= period ->
  calculate_moving_average data period = Ok ma ->
  Py.len ma = Py.len data /\
  forall i v, at_index ma i v -> opt_equiv v (Spec.sma data period i).
Proof.
  intros Hp Hma.
  destruct (moving_average_computes data period Hp) as (ma' & Hma' & Hlen & Hall).
  assert (ma' = ma) by congruence. subst ma'.
  split; [assumption|]. intros i v Hv.
  pose proof (at_index_lt _ _ _ Hv) as Hi. rewrite Hlen in Hi.
  destruct (Hall i Hi) as (w & Hw & He).
  rewrite (at_index_inj _ _ _ _ Hv Hw). assumption.
Qed.

Lemma rsi_view (prices : list Q) (period : Z) (rs : list (option Q)) :
  1 <= period ->
  calculate_rsi prices period = Ok rs ->
  Py.len rs = Py.len prices /\
  forall i v, at_index rs i v ->
    opt_equiv v (if Py.len prices <? period + 1 then None
                 else Spec.rsi prices period i).
Proof.
  intros Hp Hrs. destruct (Z.ltb_spec (Py.len prices) (period + 1)) as [Hs|Hl].
  - rewrite rsi_short in Hrs by assumption. injection Hrs as <-.
    split; [apply len_replicate, len_nonneg|].
    intros i v Hv. pose proof (at_index_lt _ _ _ Hv) as Hi.
    rewrite len_replicate in Hi by apply len_nonneg.
    rewrite (at_index_inj _ _ _ _ Hv (at_index_replicate None _ _ Hi)).
    exact I.
  - destruct (rsi_computes prices period Hp Hl) as (rs' & Hrs' & Hlen & Hall).
    assert (rs' = rs) by congruence. subst rs'.
    split; [assumption|]. intros i v Hv.
    pose proof (at_index_lt _ _ _ Hv) as Hi. rewrite Hlen in Hi.
    destruct (Hall i Hi) as (w & Hw & He).
    rewrite (at_index_inj _ _ _ _ Hv Hw). assumption.
Qed.

Lemma signals_view (prices : list Q) (sp lp rp : Z) (os ob : Q)
    (ms ml rsi : list (option Q)) (signals : list string) :
  1 <= sp -> 1 <= lp -> 1 <= rp ->
  calculate_moving_average prices sp = Ok ms ->
  calculate_moving_average prices lp = Ok ml ->
  calculate_rsi prices rp = Ok rsi ->
  generate_signals prices sp lp rp os ob = Ok signals ->
  Py.len signals = Py.len prices /\
  forall i sig, at_index signals i sig ->
    exists s l r,
      at_index ms i s /\ at_index ml i l /\ at_index rsi i r /\
      sig = Spec.decide s l r os ob.
Proof.
  intros Hs Hl Hr Hms Hml Hrsi Hsig.
  destruct (signals_compute prices sp lp rp os ob Hs Hl Hr)
    as (ms' & ml' & rsi' & signals' & H1 & H2 & H3 & H4 & Hlen & Hall).
  assert (ms' = ms) by congruence. assert (ml' = ml) by congruence.
  assert (rsi' = rsi) by congruence. assert (signals' = signals) by congruence.
  subst. split; [assumption|]. intros i sig Hv.
  pose proof (at_index_lt _ _ _ Hv) as Hi. rewrite Hlen in Hi.
  destruct (Hall i Hi) as (s & l & r & Hsi & Hli & Hri & Hd).
  exists s, l, r. repeat (split; [assumption|]).
  exact (at_index_inj _ _ _ _ Hv Hd).
Qed.

Lemma list_eq_at_index {A : Type} (l l' : list A) :
  Py.len l = Py.len l' ->
  (forall i v, at_index l i v -> at_index l' i v) ->
  l = l'.
Proof.
  intros Hlen H. apply nth_error_ext. intros n.
  destruct (nth_error l n) as [v|] eqn:E.
  - destruct (H (Z.of_nat n) v) as [_ Hv].
    + split; [lia|]. rewrite Nat2Z.id. assumption.
    + rewrite Nat2Z.id in Hv. symmetry. assumption.
  - symmetry. apply nth_error_None. apply nth_error_None in E.
    unfold Py.len in Hlen. lia.
Qed.

Lemma decide_compat (s l r s' l' r' : option Q) (os ob : Q) :
  opt_equiv s s' -> opt_equiv l l' -> opt_equiv r r' ->
  Spec.decide s l r os ob = Spec.decide s' l' r' os ob.
Proof.
  destruct s as [a|], s' as [a'|]; cbn [opt_equiv]; try tauto;
    destruct l as [b|], l' as [b'|]; cbn [opt_equiv]; try tauto;
    destruct r as [c|], r' as [c'|]; cbn [opt_equiv]; try tauto;
    try reflexivity.
  intros Ha Hb Hc. cbn [Spec.decide].
  destruct (Qlt_le_dec b a), (Qlt_le_dec b' a'); try lra;
    destruct (Qlt_le_dec c os), (Qlt_le_dec c' os); try lra;
    destruct (Qlt_le_dec a b), (Qlt_le_dec a' b'); try lra;
    destruct (Qlt_le_dec ob c), (Qlt_le_dec ob c'); try lra;
    reflexivity.
Qed.

(** ** Further properties of the moving average *)

Lemma price_at_app (data more : list Q) (j : Z) :
  0 <= j < Py.len data ->
  Spec.price_at (data ++ more) j = Spec.price_at data j.
Proof.
  intros Hj. unfold Spec.price_at. apply app_nth1. unfold Py.len in Hj. lia.
Qed.

Lemma window_mean_app (data more : list Q) (period i : Z) :
  1 <= period -> period - 1 <= i < Py.len data ->
  (Spec.window_mean (data ++ more) period i == Spec.window_mean data period i)%Q.
Proof.
  intros Hp Hi. unfold Spec.window_mean.
  rewrite (sigma_ext (Spec.price_at (data ++ more)) (Spec.price_at data));
    [reflexivity|].
  intros j Hj. rewrite price_at_app by lia. reflexivity.
Qed.

Lemma len_app_list {A : Type} (l l' : list A) :
  Py.len (l ++ l') = Py.len l + Py.len l'.
Proof. unfold Py.len. rewrite length_app. lia. Qed.

(** X1.  With [period = 1] the moving average is the series itself: every
    index is defined and carries the price at that index. *)
Theorem moving_average_period_one (data : list Q) :
  exists ma,
    calculate_moving_average data 1 = Ok ma /\
    List.length ma = List.length data /\
    forall i d, at_index data i d ->
      exists v, at_index ma i (Some v) /\ (v == d)%Q.
Proof.
  destruct (moving_average_computes data 1 ltac:(lia)) as (ma & Hma & Hlen & Hall).
  exists ma. split; [assumption|]. split; [apply len_length; assumption|].
  intros i d Hd. pose proof (at_index_lt _ _ _ Hd) as Hi.
  destruct (Hall i Hi) as (v & Hv & He).
  rewrite sma_defined in He by lia.
  apply opt_equiv_some in He. destruct He as (w & -> & Hw).
  exists w. split; [assumption|]. rewrite Hw.
  unfold Spec.window_mean.
  change (Z.to_nat 1) with 1%nat. cbn [Spec.sigma].
  replace (i - 1 + 1) with i by lia.
  rewrite (price_at_index _ _ _ Hd). field.
Qed.

(** X2.  With a period longer than the series the moving average has no
    defined value: it is as many [None] as there are prices. *)
Theorem moving_average_period_too_long (data : list Q) (period : Z) :
  Py.len data < period ->
  calculate_moving_average data period = Ok (repeat None (List.length data)).
Proof.
  intros Hlong. pose proof (len_nonneg data) as Hn.
  destruct (moving_average_computes data period ltac:(lia))
    as (ma & Hma & Hlen & Hall).
  rewrite Hma. f_equal. apply list_eq_at_index.
  - rewrite Hlen. unfold Py.len. rewrite repeat_length. reflexivity.
  - intros i v Hv. pose proof (at_index_lt _ _ _ Hv) as Hi. rewrite Hlen in Hi.
    destruct (Hall i Hi) as (w & Hw & He).
    rewrite sma_undefined in He by lia. apply opt_equiv_none in He. subst w.
    rewrite (at_index_inj _ _ _ _ Hv Hw).
    split; [lia|]. rewrite nth_error_repeat; [reflexivity|].
    unfold Py.len in Hi. lia.
Qed.

Lemma ma_prefix (data more : list Q) (period : Z)
    (ma ma' : list (option Q)) (i : Z) (v v' : option Q) :
  1 <= period ->
  calculate_moving_average data period = Ok ma ->
  calculate_moving_average (data ++ more) period = Ok ma' ->
  at_index ma i v -> at_index ma' i v' -> opt_equiv v v'.
Proof.
  intros Hp Hma Hma' Hv Hv'.
  destruct (ma_view data period ma Hp Hma) as [Hlen Hview].
  destruct (ma_view (data ++ more) period ma' Hp Hma') as [_ Hview'].
  pose proof (at_index_lt _ _ _ Hv) as Hi. rewrite Hlen in Hi.
  apply (opt_equiv_trans _ _ _ (Hview i v Hv)). apply opt_equiv_sym.
  apply (opt_equiv_trans _ _ _ (Hview' i v' Hv')).
  destruct (Z.le_gt_cases i (period - 2)) as [Hu|Hd].
  - rewrite !sma_undefined by assumption. exact I.
  - rewrite !sma_defined by lia. cbn [opt_equiv].
    apply window_mean_app; lia.
Qed.

(** X5.  The moving average does not look ahead: the values computed for a
    series are the values computed, at the same indices, for any
    continuation of it. *)
Theorem moving_average_no_lookahead (data more : list Q) (period : Z) :
  1 <= period ->
  exists ma ma',
    calculate_moving_average data period = Ok ma /\
    calculate_moving_average (data ++ more) period = Ok ma' /\
    forall i v, at_index ma i v ->
      exists v', at_index ma' i v' /\ opt_equiv v v'.
Proof.
  intros Hp.
  destruct (moving_average_computes data period Hp) as (ma & Hma & Hlen & _).
  destruct (moving_average_computes (data ++ more) period Hp)
    as (ma' & Hma' & Hlen' & _).
  exists ma, ma'. split; [assumption|]. split; [assumption|].
  intros i v Hv.
  pose proof (at_index_lt _ _ _ Hv) as Hi. rewrite Hlen in Hi.
  destruct (at_index_exists ma' i) as (v' & Hv').
  { rewrite Hlen', len_app_list. pose proof (len_nonneg more). lia. }
  exists v'. split; [assumption|].
  exact (ma_prefix data more period ma ma' i v v' Hp Hma Hma' Hv Hv').
Qed.

(** ** Further properties of the RSI *)

Lemma wilder_ext (x y : Z -> Q) (period : Z) (k : nat) :
  0 <= period ->
  (forall j, 0 <= j < period + Z.of_nat k -> (x j == y j)%Q) ->
  (Spec.wilder x period k == Spec.wilder y period k)%Q.
Proof.
  intros Hp. induction k as [|k IH]; intros H; cbn [Spec.wilder].
  - unfold Spec.seed_avg. rewrite (sigma_ext x y); [reflexivity|].
    intros j Hj. apply H. lia.
  - rewrite IH by (intros j Hj; apply H; lia).
    rewrite (H (period + Z.of_nat k)) by lia. reflexivity.
Qed.

Lemma sigma_zero (lo : Z) (n : nat) : (Spec.sigma (fun _ => 0%Q) lo n == 0)%Q.
Proof.
  revert lo. induction n as [|n IH]; intros lo; cbn [Spec.sigma].
  - reflexivity.
  - rewrite IH. ring.
Qed.

Lemma wilder_zero (period : Z) (k : nat) :
  (Spec.wilder (fun _ => 0%Q) period k == 0)%Q.
Proof.
  induction k as [|k IH]; cbn [Spec.wilder].
  - unfold Spec.seed_avg. rewrite sigma_zero. unfold Qdiv. ring.
  - rewrite IH. unfold Qdiv. ring.
Qed.

Lemma delta_at_app (prices more : list Q) (j : Z) :
  0 <= j -> j + 1 < Py.len prices ->
  Spec.delta_at (prices ++ more) j = Spec.delta_at prices j.
Proof.
  intros H0 H1. unfold Spec.delta_at. rewrite !price_at_app by lia. reflexivity.
Qed.

Lemma rsi_app (prices more : list Q) (period i : Z) :
  1 <= period -> i < Py.len prices ->
  opt_equiv (Spec.rsi (prices ++ more) period i) (Spec.rsi prices period i).
Proof.
  intros Hp Hi. destruct (Z.lt_ge_cases i period) as [Hlt|Hge].
  - rewrite !rsi_undefined by assumption. exact I.
  - rewrite !rsi_defined by assumption. cbn [opt_equiv].
    apply rsi_of_compat; apply wilder_ext; try lia;
      intros j Hj; unfold Spec.gain_at, Spec.loss_at;
      rewrite delta_at_app by lia; reflexivity.
Qed.

Lemma rsi_view_some (prices : list Q) (period : Z) (rs : list (option Q))
    (i : Z) (v : Q) :
  1 <= period ->
  calculate_rsi prices period = Ok rs ->
  at_index rs i (Some v) ->
  period <= i < Py.len prices /\
  (v == Spec.rsi_of (Spec.avg_gain_at prices period i)
                    (Spec.avg_loss_at prices period i))%Q.
Proof.
  intros Hp Hrs Hv. destruct (rsi_view prices period rs Hp Hrs) as [Hlen Hview].
  pose proof (at_index_lt _ _ _ Hv) as Hi. rewrite Hlen in Hi.
  pose proof (Hview i _ Hv) as He.
  destruct (Z.ltb_spec (Py.len prices) (period + 1)); [contradiction|].
  destruct (Z.lt_ge_cases i period) as [Hlt|Hge].
  - rewrite rsi_undefined in He by assumption. contradiction.
  - rewrite rsi_defined in He by assumption. split; [lia|exact He].
Qed.

Lemma rsi_of_lt_100 (g l : Q) :
  (0 <= g)%Q -> (0 <= l)%Q -> (Spec.rsi_of g l < 100)%Q.
Proof.
  intros Hg Hl. pose proof (rs_of_nonneg g l Hg Hl) as Hr.
  unfold Spec.rsi_of. set (r := Spec.rs_of g l) in *.
  assert (H : (0 < 100 / (1 + r))%Q).
  { apply Qlt_shift_div_l; lra. }
  lra.
Qed.

Lemma Qpos_of_nonzero (l : Q) : (0 <= l)%Q -> ~ (l == 0)%Q -> (0 < l)%Q.
Proof.
  intros Hl Hnz. destruct (Qlt_le_dec 0 l) as [H|H]; [assumption|].
  exfalso. apply Hnz. lra.
Qed.

Lemma rsi_of_closed_form (g l : Q) :
  (0 <= g)%Q -> (0 <= l)%Q -> ~ (l == 0)%Q ->
  (Spec.rsi_of g l == 100 * g / (g + l))%Q.
Proof.
  intros Hg Hl Hnz. unfold Spec.rsi_of, Spec.rs_of.
  destruct (Qeq_bool l 0) eqn:E.
  - apply Qeq_bool_eq in E. contradiction.
  - pose proof (Qpos_of_nonzero l Hl Hnz) as Hpos.
    field. split; [lra|assumption].
Qed.

Lemma rsi_of_zero_iff (g l : Q) :
  (0 <= g)%Q -> (0 <= l)%Q ->
  (Spec.rsi_of g l == 0)%Q <-> (g == 0)%Q \/ (l == 0)%Q.
Proof.
  intros Hg Hl. destruct (Qeq_dec l 0) as [Hz|Hnz].
  - split; [intros _; right; assumption|].
    intros _. apply rsi_of_zero_loss. assumption.
  - rewrite (rsi_of_closed_form g l Hg Hl Hnz).
    pose proof (Qpos_of_nonzero l Hl Hnz) as Hlpos.
    assert (Hpos : (0 < g + l)%Q) by lra.
    split.
    + intros H. left.
      assert (H' : (100 * g == 0 * (g + l))%Q).
      { rewrite <- H. field. lra. }
      lra.
    + intros [H|H]; [|contradiction]. rewrite H. field. lra.
Qed.

Lemma avg_gain_never_rises (prices : list Q) (period i : Z) :
  1 <= period -> never_rises prices -> period <= i < Py.len prices ->
  (Spec.avg_gain_at prices period i == 0)%Q.
Proof.
  intros Hp Hmono Hi. unfold Spec.avg_gain_at.
  rewrite (wilder_ext _ (fun _ => 0%Q)); [apply wilder_zero|lia|].
  intros j Hj. unfold Spec.gain_at, Spec.delta_at.
  pose proof (Hmono j ltac:(lia) ltac:(lia)) as Hle.
  apply Q.max_r. lra.
Qed.

Lemma avg_loss_never_falls (prices : list Q) (period i : Z) :
  1 <= period -> never_falls prices -> period <= i < Py.len prices ->
  (Spec.avg_loss_at prices period i == 0)%Q.
Proof.
  intros Hp Hmono Hi. unfold Spec.avg_loss_at.
  rewrite (wilder_ext _ (fun _ => 0%Q)); [apply wilder_zero|lia|].
  intros j Hj. unfold Spec.loss_at, Spec.delta_at.
  pose proof (Hmono j ltac:(lia) ltac:(lia)) as Hle.
  apply Q.max_r. lra.
Qed.

Lemma rsi_monotone_zero (prices : list Q) (period : Z) (rs : list (option Q))
    (i : Z) (v : Q) :
  1 <= period -> never_rises prices \/ never_falls prices ->
  calculate_rsi prices period = Ok rs ->
  at_index rs i (Some v) -> (v == 0)%Q.
Proof.
  intros Hp Hmono Hrs Hv.
  destruct (rsi_view_some prices period rs i v Hp Hrs Hv) as [Hi He].
  rewrite He. apply rsi_of_zero_iff.
  - apply avg_gain_at_nonneg. assumption.
  - apply avg_loss_at_nonneg. assumption.
  - destruct Hmono as [H|H].
    + left. apply avg_gain_never_rises; assumption.
    + right. apply avg_loss_never_falls; assumption.
Qed.

Lemma rsi_prefix (prices more : list Q) (period : Z)
    (rs rs' : list (option Q)) (i : Z) (v v' : option Q) :
  1 <= period ->
  calculate_rsi prices period = Ok rs ->
  calculate_rsi (prices ++ more) period = Ok rs' ->
  at_index rs i v -> at_index rs' i v' -> opt_equiv v v'.
Proof.
  intros Hp Hrs Hrs' Hv Hv'.
  destruct (rsi_view _ _ _ Hp Hrs) as [Hlen Hview].
  destruct (rsi_view _ _ _ Hp Hrs') as [_ Hview'].
  pose proof (at_index_lt _ _ _ Hv) as Hi. rewrite Hlen in Hi.
  pose proof (len_nonneg more) as Hmore.
  pose proof (Hview i v Hv) as He. pose proof (Hview' i v' Hv') as He'.
  rewrite len_app_list in He'.
  apply (opt_equiv_trans _ _ _ He). apply opt_equiv_sym.
  apply (opt_equiv_trans _ _ _ He').
  destruct (Z.ltb_spec (Py.len prices) (period + 1)) as [Hs|Hl];
    destruct (Z.ltb_spec (Py.len prices + Py.len more) (period + 1)) as [Hs'|Hl'];
    try exact I; try lia.
  - rewrite rsi_undefined by lia. exact I.
  - apply rsi_app; lia.
Qed.

(** X6.  The RSI does not look ahead: the values computed for a series are
    the values computed, at the same indices, for any continuation of it
    (a series too short for one RSI value has [None] there either way). *)
Theorem rsi_no_lookahead (prices more : list Q) (period : Z) :
  1 <= period ->
  exists rs rs',
    calculate_rsi prices period = Ok rs /\
    calculate_rsi (prices ++ more) period = Ok rs' /\
    forall i v, at_index rs i v ->
      exists v', at_index rs' i v' /\ opt_equiv v v'.
Proof.
  intros Hp.
  destruct (rsi_total prices period Hp) as (rs & Hrs & Hlen).
  destruct (rsi_total (prices ++ more) period Hp) as (rs' & Hrs' & Hlen').
  exists rs, rs'. split; [assumption|]. split; [assumption|].
  intros i v Hv.
  pose proof (at_index_lt _ _ _ Hv) as Hi. rewrite Hlen in Hi.
  destruct (at_index_exists rs' i) as (v' & Hv').
  { rewrite Hlen', len_app_list. pose proof (len_nonneg more). lia. }
  exists v'. split; [assumption|].
  exact (rsi_prefix prices more period rs rs' i v v' Hp Hrs Hrs' Hv Hv').
Qed.

(** ** Further properties of the signals *)

Lemma at_index_firstn {A : Type} (n : nat) (l : list A) (i : Z) (v : A) :
  at_index (firstn n l) i v -> i < Z.of_nat n /\ at_index l i v.
Proof.
  intros [Hi Hn]. rewrite nth_error_firstn in Hn.
  destruct (Nat.ltb_spec (Z.to_nat i) n); [|discriminate].
  split; [lia|]. split; assumption.
Qed.

Lemma signals_exist (prices : list Q) (sp lp rp : Z) (os ob : Q) :
  1 <= sp -> 1 <= lp -> 1 <= rp ->
  exists ms ml rsi signals,
    calculate_moving_average prices sp = Ok ms /\
    calculate_moving_average prices lp = Ok ml /\
    calculate_rsi prices rp = Ok rsi /\
    generate_signals prices sp lp rp os ob = Ok signals /\
    Py.len signals = Py.len prices /\
    forall i sig, at_index signals i sig ->
      exists s l r,
        at_index ms i s /\ at_index ml i l /\ at_index rsi i r /\
        sig = Spec.decide s l r os ob.
Proof.
  intros Hs Hl Hr.
  destruct (signals_compute prices sp lp rp os ob Hs Hl Hr)
    as (ms & ml & rsi & signals & H1 & H2 & H3 & H4 & _).
  exists ms, ml, rsi, signals. repeat (split; [assumption|]).
  exact (signals_view prices sp lp rp os ob ms ml rsi signals
           Hs Hl Hr H1 H2 H3 H4).
Qed.

(** X10.  The signals do not look ahead: the signals of a series are the
    first signals of any continuation of it. *)
Theorem signals_no_lookahead (prices more : list Q)
    (short_period long_period rsi_period : Z) (oversold overbought : Q) :
  1 <= short_period -> 1 <= long_period -> 1 <= rsi_period ->
  exists signals signals',
    generate_signals prices short_period long_period rsi_period
      oversold overbought = Ok signals /\
    generate_signals (prices ++ more) short_period long_period rsi_period
      oversold overbought = Ok signals' /\
    firstn (List.length prices) signals' = signals.
Proof.
  intros Hs Hl Hr.
  destruct (signals_exist prices short_period long_period rsi_period
              oversold overbought Hs Hl Hr)
    as (ms & ml & rsi & signals & Hms & Hml & Hrsi & Hsig & Hlen & Hview).
  destruct (signals_exist (prices ++ more) short_period long_period rsi_period
              oversold overbought Hs Hl Hr)
    as (ms' & ml' & rsi' & signals' & Hms' & Hml' & Hrsi' & Hsig' & Hlen' & Hview').
  exists signals, signals'. split; [assumption|]. split; [assumption|].
  assert (Hle : Py.len prices <= Py.len signals').
  { rewrite Hlen', len_app_list. pose proof (len_nonneg more). lia. }
  apply list_eq_at_index.
  - unfold Py.len in *. rewrite length_firstn. lia.
  - intros i sig Hv. apply at_index_firstn in Hv. destruct Hv as [Hi Hv].
    destruct (Hview' i sig Hv) as (s' & l' & r' & Hs' & Hl' & Hr' & ->).
    destruct (at_index_exists signals i) as (w & Hw).
    { rewrite Hlen. unfold Py.len. destruct Hv. lia. }
    destruct (Hview i w Hw) as (s & l & r & Hs0 & Hl0 & Hr0 & ->).
    rewrite <- (decide_compat s l r s' l' r'); [assumption| | |].
    + exact (ma_prefix _ _ _ _ _ _ _ _ Hs Hms Hms' Hs0 Hs').
    + exact (ma_prefix _ _ _ _ _ _ _ _ Hl Hml Hml' Hl0 Hl').
    + exact (rsi_prefix _ _ _ _ _ _ _ _ Hr Hrsi Hrsi' Hr0 Hr').
Qed.

Lemma decide_buy_inv (s l r : option Q) (os ob : Q) :
  Spec.decide s l r os ob = "BUY"%string ->
  exists a b c, s = Some a /\ l = Some b /\ r = Some c /\
                (b < a)%Q /\ (c < os)%Q.
Proof.
  destruct s as [a|], l as [b|], r as [c|]; try discriminate.
  intros H. exists a, b, c. repeat (split; [reflexivity|]).
  apply (proj1 (decide_defined a b c os ob)). assumption.
Qed.

Lemma decide_sell_inv (s l r : option Q) (os ob : Q) :
  Spec.decide s l r os ob = "SELL"%string ->
  exists a b c, s = Some a /\ l = Some b /\ r = Some c /\
                (a < b)%Q /\ (ob < c)%Q.
Proof.
  destruct s as [a|], l as [b|], r as [c|]; try discriminate.
  intros H. exists a, b, c. repeat (split; [reflexivity|]).
  apply (proj1 (proj1 (proj2 (decide_defined a b c os ob)))). assumption.
Qed.

Lemma decide_same (s r : option Q) (os ob : Q) :
  Spec.decide s s r os ob = "HOLD"%string.
Proof.
  destruct s as [a|]; [|apply decide_undefined; auto].
  destruct r as [c|]; [|apply decide_undefined; auto].
  apply decide_defined. reflexivity.
Qed.

Lemma In_at_index {A : Type} (l : list A) (v : A) :
  In v l -> exists i, at_index l i v.
Proof.
  intros H. apply In_nth_error in H. destruct H as (n & Hn).
  exists (Z.of_nat n). split; [lia|]. rewrite Nat2Z.id. assumption.
Qed.

Lemma rsi_value_range (prices : list Q) (period : Z) (rs : list (option Q))
    (i : Z) (v : Q) :
  1 <= period -> calculate_rsi prices period = Ok rs ->
  at_index rs i (Some v) -> (0 <= v < 100)%Q.
Proof.
  intros Hp Hrs Hv.
  destruct (rsi_view_some prices period rs i v Hp Hrs Hv) as [_ He].
  pose proof (avg_gain_at_nonneg prices period Hp i) as Hg.
  pose proof (avg_loss_at_nonneg prices period Hp i) as Hl.
  pose proof (rsi_of_bounds _ _ Hg Hl) as [H0 _].
  pose proof (rsi_of_lt_100 _ _ Hg Hl) as H1.
  rewrite He. split; assumption.
Qed.

(** X11.  Warm-up: the signal is HOLD at every index below
    [short_period - 1], below [long_period - 1] or below [rsi_period]. *)
Theorem signals_warm_up_hold (prices : list Q)
    (short_period long_period rsi_period : Z) (oversold overbought : Q) :
  1 <= short_period -> 1 <= long_period -> 1 <= rsi_period ->
  exists signals,
    generate_signals prices short_period long_period rsi_period
      oversold overbought = Ok signals /\
    forall i sig, at_index signals i sig ->
      i < short_period - 1 \/ i < long_period - 1 \/ i < rsi_period ->
      sig = "HOLD"%string.
Proof.
  intros Hs Hl Hr.
  destruct (signals_exist prices short_period long_period rsi_period
              oversold overbought Hs Hl Hr)
    as (ms & ml & rsi & signals & Hms & Hml & Hrsi & Hsig & Hlen & Hview).
  exists signals. split; [assumption|]. intros i sig Hv Hearly.
  destruct (Hview i sig Hv) as (s & l & r & Hsi & Hli & Hri & ->).
  apply decide_undefined. destruct Hearly as [H | [H | H]].
  - left. pose proof (proj2 (ma_view _ _ _ Hs Hms) i s Hsi) as He.
    rewrite sma_undefined in He by lia. apply opt_equiv_none. assumption.
  - right. left. pose proof (proj2 (ma_view _ _ _ Hl Hml) i l Hli) as He.
    rewrite sma_undefined in He by lia. apply opt_equiv_none. assumption.
  - right. right. pose proof (proj2 (rsi_view _ _ _ Hr Hrsi) i r Hri) as He.
    apply opt_equiv_none.
    destruct (Z.ltb_spec (Py.len prices) (rsi_period + 1)); [assumption|].
    rewrite rsi_undefined in He by assumption. assumption.
Qed.

(** X12.  With the same period for the short and the long average every
    signal is HOLD, whatever the prices, the RSI period and the
    thresholds. *)
Theorem signals_equal_periods_hold (prices : list Q)
    (period rsi_period : Z) (oversold overbought : Q) :
  1 <= period -> 1 <= rsi_period ->
  exists signals,
    generate_signals prices period period rsi_period
      oversold overbought = Ok signals /\
    List.length signals = List.length prices /\
    Forall (fun x => x = "HOLD"%string) signals.
Proof.
  intros Hp Hr.
  destruct (signals_exist prices period period rsi_period
              oversold overbought Hp Hp Hr)
    as (ms & ml & rsi & signals & Hms & Hml & Hrsi & Hsig & Hlen & Hview).
  assert (ml = ms) by congruence. subst ml.
  exists signals. split; [assumption|].
  split; [apply len_length; assumption|].
  apply Forall_at_index. intros i Hi.
  destruct (at_index_exists signals i Hi) as (sig & Hv).
  exists sig. split; [assumption|].
  destruct (Hview i sig Hv) as (s & l & r & Hsi & Hli & Hri & ->).
  rewrite (at_index_inj _ _ _ _ Hli Hsi). apply decide_same.
Qed.

(** X13.  Thresholds out of the RSI's reach switch a signal off: with
    [oversold <= 0] no signal is BUY, and with [overbought >= 100] no
    signal is SELL. *)
Theorem signals_threshold_extremes (prices : list Q)
    (short_period long_period rsi_period : Z) (oversold overbought : Q) :
  1 <= short_period -> 1 <= long_period -> 1 <= rsi_period ->
  exists signals,
    generate_signals prices short_period long_period rsi_period
      oversold overbought = Ok signals /\
    ((oversold <= 0)%Q -> ~ In "BUY"%string signals) /\
    ((100 <= overbought)%Q -> ~ In "SELL"%string signals).
Proof.
  intros Hs Hl Hr.
  destruct (signals_exist prices short_period long_period rsi_period
              oversold overbought Hs Hl Hr)
    as (ms & ml & rsi & signals & Hms & Hml & Hrsi & Hsig & Hlen & Hview).
  exists signals. split; [assumption|]. split.
  - intros Hos Hin. apply In_at_index in Hin. destruct Hin as (i & Hv).
    destruct (Hview i _ Hv) as (s & l & r & Hsi & Hli & Hri & Hd).
    symmetry in Hd. apply decide_buy_inv in Hd.
    destruct Hd as (a & b & c & -> & -> & -> & _ & Hc).
    pose proof (rsi_value_range _ _ _ _ _ Hr Hrsi Hri) as Hb. lra.
  - intros Hob Hin. apply In_at_index in Hin. destruct Hin as (i & Hv).
    destruct (Hview i _ Hv) as (s & l & r & Hsi & Hli & Hri & Hd).
    symmetry in Hd. apply decide_sell_inv in Hd.
    destruct Hd as (a & b & c & -> & -> & -> & _ & Hc).
    pose proof (rsi_value_range _ _ _ _ _ Hr Hrsi Hri) as Hb. lra.
Qed.

(** X14.  On a series that never rises, and on one that never falls, no
    signal is SELL when [overbought] is not negative: the RSI is 0
    there. *)
Theorem signals_monotone_series_no_sell (prices : list Q)
    (short_period long_period rsi_period : Z) (oversold overbought : Q) :
  1 <= short_period -> 1 <= long_period -> 1 <= rsi_period ->
  never_rises prices \/ never_falls prices ->
  (0 <= overbought)%Q ->
  exists signals,
    generate_signals prices short_period long_period rsi_period
      oversold overbought = Ok signals /\
    ~ In "SELL"%string signals.
Proof.
  intros Hs Hl Hr Hmono Hob.
  destruct (signals_exist prices short_period long_period rsi_period
              oversold overbought Hs Hl Hr)
    as (ms & ml & rsi & signals & Hms & Hml & Hrsi & Hsig & Hlen & Hview).
  exists signals. split; [assumption|].
  intros Hin. apply In_at_index in Hin. destruct Hin as (i & Hv).
  destruct (Hview i _ Hv) as (s & l & r & Hsi & Hli & Hri & Hd).
  symmetry in Hd. apply decide_sell_inv in Hd.
  destruct Hd as (a & b & c & -> & -> & -> & _ & Hc).
  pose proof (rsi_monotone_zero _ _ _ _ _ Hr Hmono Hrsi Hri) as Hz. lra.
Qed.

(** ** The demonstration run *)

Lemma main_prices (draw : Z -> Q) :
  exists prices,
    Py.comprehension (Py.range 0 100) (fun k => Ok (100 + draw k)%Q)
    = Ok prices /\
    Py.len prices = 100 /\
    forall k, 0 <= k < 100 -> at_index prices k (100 + draw k)%Q.
Proof.
  unfold Py.comprehension. apply (for_each_range (prices_inv draw)).
  - lia.
  - split; [reflexivity|]. intros k Hk. lia.
  - intros i acc Hi [Hlen Hold]. cbn [bind].
    eexists. split; [reflexivity|].
    split; [rewrite len_app; lia|].
    intros k Hk. destruct (Z.eq_dec k i) as [-> | Hne].
    + rewrite <- Hlen. apply at_index_app_new.
    + apply at_index_app_old. apply Hold. lia.
Qed.

Lemma main_rows (draw : Z -> Q) :
  exists prices signals printed,
    (forall k, 0 <= k < 100 -> at_index prices k (100 + draw k)%Q) /\
    Py.len prices = 100 /\
    generate_signals prices 5 20 14 30 70 = Ok signals /\
    main draw = Ok printed /\
    Py.len printed = 20 /\
    forall k, 0 <= k < 20 ->
      exists signal,
        at_index signals k signal /\
        at_index printed k (k, (100 + draw k)%Q, signal).
Proof.
  destruct (main_prices draw) as (prices & Hprices & Hlen & Hall).
  destruct (signals_exist prices 5 20 14 30 70 ltac:(lia) ltac:(lia) ltac:(lia))
    as (ms & ml & rsi & signals & _ & _ & _ & Hsig & Hslen & _).
  unfold main. rewrite Hprices. cbn [bind].
  unfold generate_signals_default. rewrite Hsig. cbn [bind].
  match goal with
  | |- context [Py.for_each ?r ?b ?s] =>
      destruct (for_each_range (printed_inv prices signals) b 0 20 s)
        as (printed & Hprinted & Hplen & Hrows)
  end.
  - lia.
  - split; [reflexivity|]. intros k Hk. lia.
  - intros i printed Hi [Hplen Hold].
    destruct (at_index_exists signals i) as (signal & Hsi); [lia|].
    rewrite (index_ok _ _ _ (Hall i ltac:(lia))). cbn [bind].
    rewrite (index_ok _ _ _ Hsi). cbn [bind].
    eexists. split; [reflexivity|].
    split; [rewrite len_app; lia|].
    intros k Hk. destruct (Z.eq_dec k i) as [-> | Hne].
    + exists (100 + draw i)%Q, signal.
      split; [apply Hall; lia|]. split; [assumption|].
      rewrite <- Hplen. apply at_index_app_new.
    + destruct (Hold k) as (p & sg & H1 & H2 & H3); [lia|].
      exists p, sg. split; [assumption|]. split; [assumption|].
      apply at_index_app_old. assumption.
  - exists prices, signals, printed.
    split; [assumption|]. split; [assumption|]. split; [assumption|].
    split; [assumption|]. split; [assumption|].
    intros k Hk. destruct (Hrows k Hk) as (p & sg & H1 & H2 & H3).
    exists sg. split; [assumption|].
    rewrite <- (at_index_inj _ _ _ _ H1 (Hall k ltac:(lia))). assumption.
Qed.

(** X18.  Whatever the random draws, [main] raises nothing and prints
    exactly 20 lines; line [idx] shows the index [idx], the price
    [100 + draw idx] and one of BUY, SELL, HOLD. *)
Theorem main_prints_twenty_rows (draw : Z -> Q) :
  exists printed,
    main draw = Ok printed /\
    List.length printed = 20%nat /\
    forall idx, 0 <= idx < 20 ->
      exists signal,
        at_index printed idx (idx, (100 + draw idx)%Q, signal) /\
        (signal = "BUY" \/ signal = "SELL" \/ signal = "HOLD")%string.
Proof.
  destruct (main_rows draw)
    as (prices & signals & printed & _ & _ & Hsig & Hmain & Hlen & Hrows).
  exists printed. split; [assumption|].
  split; [unfold Py.len in Hlen; lia|].
  intros idx Hidx. destruct (Hrows idx Hidx) as (signal & Hs & Hrow).
  exists signal. split; [assumption|].
  destruct (signals_exist prices 5 20 14 30 70 ltac:(lia) ltac:(lia) ltac:(lia))
    as (ms & ml & rsi & signals' & _ & _ & _ & Hsig' & _ & Hview).
  assert (signals' = signals) by congruence. subst signals'.
  destruct (Hview idx signal Hs) as (s & l & r & _ & _ & _ & ->).
  apply decide_enum.
Qed.

(** X19.  Whatever the random draws, the first 19 lines [main] prints show
    HOLD: the long average of period 20 is undefined there. *)
Theorem main_first_rows_hold (draw : Z -> Q) :
  exists printed,
    main draw = Ok printed /\
    forall idx price signal,
      at_index printed idx (idx, price, signal) -> idx < 19 ->
      signal = "HOLD"%string.
Proof.
  destruct (main_rows draw)
    as (prices & signals & printed & _ & _ & Hsig & Hmain & Hlen & Hrows).
  exists printed. split; [assumption|].
  intros idx price signal Hrow Hidx.
  pose proof (at_index_lt _ _ _ Hrow) as Hi. rewrite Hlen in Hi.
  destruct (Hrows idx Hi) as (signal' & Hs & Hrow').
  pose proof (at_index_inj _ _ _ _ Hrow Hrow') as E.
  injection E as _ ->.
  destruct (signals_exist prices 5 20 14 30 70 ltac:(lia) ltac:(lia) ltac:(lia))
    as (ms & ml & rsi & signals' & _ & Hml & _ & Hsig' & _ & Hview).
  assert (signals' = signals) by congruence. subst signals'.
  destruct (Hview idx signal' Hs) as (s & l & r & _ & Hli & _ & ->).
  apply decide_undefined. right. left.
  pose proof (proj2 (ma_view prices 20 ml ltac:(lia) Hml) idx l Hli) as He.
  rewrite sma_undefined in He by lia. apply opt_equiv_none. assumption.
Qed.

(** ** The further properties at concrete inputs *)

Lemma rising_series_never_falls : never_falls [1; 2; 3; 4; 5; 6; 7; 8]%Q.
Proof.
  intros j H0 H1. unfold Py.len in H1. cbn in H1.
  assert (Hj : j = 0 \/ j = 1 \/ j = 2 \/ j = 3 \/ j = 4 \/ j = 5 \/ j = 6)
    by lia.
  destruct Hj as [-> | [-> | [-> | [-> | [-> | [-> | ->]]]]]];
    vm_compute; discriminate.
Defined.

Lemma moving_average_period_too_long_witness :
  Py.len [1; 2; 3]%Q < 5 /\
  calculate_moving_average [1; 2; 3]%Q 5 = Ok [None; None; None].
Proof.
  assert (H : Py.len [1; 2; 3]%Q < 5) by (unfold Py.len; cbn; lia).
  split; [exact H|].
  exact (moving_average_period_too_long [1; 2; 3]%Q 5 H).
Defined.

Lemma moving_average_no_lookahead_witness :
  1 <= 3 /\
  exists ma ma',
    calculate_moving_average [1; 3; 2; 5; 4]%Q 3 = Ok ma /\
    calculate_moving_average ([1; 3; 2; 5; 4] ++ [4; 7; 8])%Q 3 = Ok ma' /\
    forall i v, at_index ma i v ->
      exists v', at_index ma' i v' /\ opt_equiv v v'.
Proof.
  assert (H1 : 1 <= 3) by lia.
  split; [exact H1|].
  exact (moving_average_no_lookahead [1; 3; 2; 5; 4]%Q [4; 7; 8]%Q 3 H1).
Defined.

Lemma rsi_no_lookahead_witness :
  1 <= 3 /\
  exists rs rs',
    calculate_rsi [1; 3; 2; 5; 4]%Q 3 = Ok rs /\
    calculate_rsi ([1; 3; 2; 5; 4] ++ [4; 7; 8])%Q 3 = Ok rs' /\
    forall i v, at_index rs i v ->
      exists v', at_index rs' i v' /\ opt_equiv v v'.
Proof.
  assert (H1 : 1 <= 3) by lia.
  split; [exact H1|].
  exact (rsi_no_lookahead [1; 3; 2; 5; 4]%Q [4; 7; 8]%Q 3 H1).
Defined.

Lemma signals_no_lookahead_witness :
  1 <= 2 /\ 1 <= 3 /\
  exists signals signals',
    generate_signals [1; 3; 2; 5; 4]%Q 2 3 3 30 70 = Ok signals /\
    generate_signals ([1; 3; 2; 5; 4] ++ [4; 7; 8])%Q 2 3 3 30 70
    = Ok signals' /\
    firstn (List.length [1; 3; 2; 5; 4]%Q) signals' = signals.
Proof.
  assert (H2 : 1 <= 2) by lia.
  assert (H3 : 1 <= 3) by lia.
  split; [exact H2|]. split; [exact H3|].
  exact (signals_no_lookahead [1; 3; 2; 5; 4]%Q [4; 7; 8]%Q 2 3 3 30 70
           H2 H3 H3).
Defined.

Lemma signals_warm_up_hold_witness :
  1 <= 2 /\ 1 <= 3 /\
  exists signals,
    generate_signals [1; 2; 3; 4; 5; 6; 7; 8]%Q 2 3 3 30 70 = Ok signals /\
    forall i sig, at_index signals i sig ->
      i < 2 - 1 \/ i < 3 - 1 \/ i < 3 -> sig = "HOLD"%string.
Proof.
  assert (H2 : 1 <= 2) by lia.
  assert (H3 : 1 <= 3) by lia.
  split; [exact H2|]. split; [exact H3|].
  exact (signals_warm_up_hold [1; 2; 3; 4; 5; 6; 7; 8]%Q 2 3 3 30 70 H2 H3 H3).
Defined.

Lemma signals_equal_periods_hold_witness :
  1 <= 2 /\ 1 <= 3 /\
  exists signals,
    generate_signals [1; 2; 3; 4; 5; 6; 7; 8]%Q 2 2 3 30 70 = Ok signals /\
    List.length signals = List.length [1; 2; 3; 4; 5; 6; 7; 8]%Q /\
    Forall (fun x => x = "HOLD"%string) signals.
Proof.
  assert (H2 : 1 <= 2) by lia.
  assert (H3 : 1 <= 3) by lia.
  split; [exact H2|]. split; [exact H3|].
  exact (signals_equal_periods_hold [1; 2; 3; 4; 5; 6; 7; 8]%Q 2 3 30 70 H2 H3).
Defined.

Lemma signals_threshold_extremes_witness :
  1 <= 2 /\ 1 <= 3 /\
  exists signals,
    generate_signals [1; 2; 3; 4; 5; 6; 7; 8]%Q 2 3 3 0 100 = Ok signals /\
    ((0 <= 0)%Q -> ~ In "BUY"%string signals) /\
    ((100 <= 100)%Q -> ~ In "SELL"%string signals).
Proof.
  assert (H2 : 1 <= 2) by lia.
  assert (H3 : 1 <= 3) by lia.
  split; [exact H2|]. split; [exact H3|].
  exact (signals_threshold_extremes [1; 2; 3; 4; 5; 6; 7; 8]%Q 2 3 3 0 100
           H2 H3 H3).
Defined.

Lemma signals_monotone_series_no_sell_witness :
  1 <= 2 /\ 1 <= 3 /\
  (never_rises [1; 2; 3; 4; 5; 6; 7; 8]%Q
   \/ never_falls [1; 2; 3; 4; 5; 6; 7; 8]%Q) /\
  (0 <= 70)%Q /\
  exists signals,
    generate_signals [1; 2; 3; 4; 5; 6; 7; 8]%Q 2 3 3 30 70 = Ok signals /\
    ~ In "SELL"%string signals.
Proof.
  assert (H2 : 1 <= 2) by lia.
  assert (H3 : 1 <= 3) by lia.
  assert (Hm : never_rises [1; 2; 3; 4; 5; 6; 7; 8]%Q
               \/ never_falls [1; 2; 3; 4; 5; 6; 7; 8]%Q)
    by (right; exact rising_series_never_falls).
  assert (Hob : (0 <= 70)%Q) by (vm_compute; discriminate).
  split; [exact H2|]. split; [exact H3|]. split; [exact Hm|].
  split; [exact Hob|].
  exact (signals_monotone_series_no_sell [1; 2; 3; 4; 5; 6; 7; 8]%Q 2 3 3 30 70
           H2 H3 H3 Hm Hob).
Defined.



Lemma constant_series_hold_witness :
  constant_series 10 [10; 10; 10; 10; 10; 10; 10; 10; 10; 10]%Q /\
  1 <= 3 /\ 1 <= 5 /\
  (exists signals,
     generate_signals [10; 10; 10; 10; 10; 10; 10; 10; 10; 10]%Q 3 5 3 30 70
     = Ok signals /\
     Forall (fun x => x = "HOLD"%string) signals) /\
  (exists signals,
     B64.generate_signals B64.sum_sequential ten_tens 3 5 3 30 70
     = Ok signals /\
     List.length signals = 10%nat /\
     Forall (fun x => x = "HOLD"%string) signals).
Proof.
  assert (Hc : constant_series 10 [10; 10; 10; 10; 10; 10; 10; 10; 10; 10]%Q)
    by (repeat constructor).
  assert (H3 : 1 <= 3) by lia.
  assert (H5 : 1 <= 5) by lia.
  destruct constant_series_hold as [Hexact Hfloat].
  split; [exact Hc|]. split; [exact H3|]. split; [exact H5|]. split.
  - destruct (Hexact 10%Q _ 3 5 3 30%Q 70%Q Hc H3 H5 H3)
      as (ms & ml & signals & _ & _ & _ & _ & _ & Hsig & _ & Hall).
    exists signals. split; [exact Hsig|exact Hall].
  - exact (proj2 (Hfloat B64.sum_sequential (or_introl eq_refl)
                    3 5 3 30%float 70%float H3 H5 H3)).
Defined.

